(** * learning.py: training and evaluation of the LSTM + neural-net pair

    A shallow embedding of [src/learning.py].  Python floats are read as
    exact rationals ([Q]); numpy arrays as lists; the two collaborators
    ([LSTM] from lstm.py, [DNN] from nn_base.py), the random generators
    and the metrics routine of sklearn are parameters of the development.
    Objects mutated in place (the two networks, the generators) live in an
    explicit [world], together with a log of the calls made on the two
    networks.  Exceptions keep the world they were raised in, as in
    Python.  The [print] statements are left out. *)

From Stdlib Require Import QArith Lqa.
From stdpp Require Import gmap strings list fin_maps.

Local Open Scope Q_scope.

(** ** Numbers, arrays, items *)

Abbreviation vec := (list Q).
Abbreviation matrix := (list (list Q)).

(** A target label: a number, or Python's [None]. *)
Abbreviation label := (option Q).

(** The value of an author entry: [(x_mat, fy, yt)]. *)
Abbreviation entry := (list (list Q) * list Q * option Q)%type.

(** One element of [dict.items()]: [(author, (x_mat, fy, yt))]. *)
Abbreviation item := (string * (list (list Q) * list Q * option Q))%type.

Definition item_label (it : item) : label := it.2.2.

(** [M], [Nf_quality], [Nf_existence]: module constants. *)
Definition M : Z := 12.
Definition Nf_quality : Z := 14.
Definition Nf_existence : Z := 15.

(** ** Exceptions and results *)

Inductive exn :=
  | ValueError
  | IndexError
  | TypeError
  | UnboundLocalError
  | CollaboratorError.

Inductive result (A : Type) :=
  | Ok (a : A)
  | Raise (e : exn).
Arguments Ok {A} a.
Arguments Raise {A} e.

Definition result_bind {A B} (r : result A) (f : A → result B) : result B :=
  match r with
  | Ok a => f a
  | Raise e => Raise e
  end.

(** ** Python and numpy primitives used by the source *)

Definition Qltb (a b : Q) : bool := negb (Qle_bool b a).

(** [not yt]: [None], [0] and [0.0] are falsy. *)
Definition py_not (yt : label) : bool :=
  match yt with
  | None => true
  | Some q => Qeq_bool q 0
  end.

(** [yt < c] and [yt > c] for a float [c].  In Python 2 [None] is smaller
    than every number. *)
Definition py_lt (yt : label) (c : Q) : bool :=
  match yt with
  | None => true
  | Some q => Qltb q c
  end.

Definition py_gt (yt : label) (c : Q) : bool :=
  match yt with
  | None => false
  | Some q => Qltb c q
  end.

(** [x is None]. *)
Definition is_None {A} (x : option A) : bool :=
  match x with
  | None => true
  | Some _ => false
  end.

(** [k > 0], for [k] an int or [None]; [None > 0] is [False] in
    Python 2. *)
Definition k_gt_0 (k : option Z) : bool :=
  match k with
  | None => false
  | Some z => (0 <? z)%Z
  end.

(** [k > 0 or k is None]. *)
Definition k_pos_or_none (k : option Z) : bool := k_gt_0 k || is_None k.
Arguments k_pos_or_none : simpl never.

(** [v[:k]]: a negative [k] counts from the end, [None] takes all. *)
Definition slice_to (k : option Z) (v : vec) : vec :=
  match k with
  | None => v
  | Some z =>
      if (0 <=? z)%Z then take (Z.to_nat z) v
      else take (length v - Z.to_nat (- z)) v
  end.

(** [v[i]] for a non-negative literal index. *)
Definition getitem (v : vec) (i : nat) : result Q :=
  match v !! i with
  | Some x => Ok x
  | None => Raise IndexError
  end.

(** [row[-1]]. *)
Definition getitem_last (v : vec) : result Q :=
  match last v with
  | Some x => Ok x
  | None => Raise IndexError
  end.

(** [row[:-2]]. *)
Definition drop_last2 (v : vec) : vec := take (length v - 2) v.

(** Arithmetic on a label raises [TypeError] on [None]. *)
Definition label_value (yt : label) : result Q :=
  match yt with
  | Some q => Ok q
  | None => Raise TypeError
  end.

(** [1.0 * (yt + 1.0) / 2.0]. *)
Definition normalize (yt : Q) : Q := 1 * (yt + 1) / 2.

Definition Qsum (l : list Q) : Q := foldr Qplus 0 l.

(** [np.average] of a non-empty sequence. *)
Definition np_average (l : list Q) : Q :=
  Qsum l / inject_Z (Z.of_nat (length l)).

(** [np.square]. *)
Definition np_square (x : Q) : Q := x * x.

(** [np.zeros(n)]. *)
Definition np_zeros (n : nat) : vec := replicate n 0.

(** [np.resize(a, n)]: [a] repeated to length [n]; zeros when [a] is
    empty. *)
Definition np_resize (a : vec) (n : nat) : vec :=
  match a with
  | [] => np_zeros n
  | _ => take n (mjoin (replicate n a))
  end.

(** [dst[:k] = src[:k]] for [dst] and [src] of the same length. *)
Definition assign_slice_to (k : option Z) (dst src : vec) : vec :=
  slice_to k src ++ drop (length (slice_to k src)) dst.

(** The values [fix_bit_val] can hold besides [None]. *)
Inductive pyval :=
  | PyNum (q : Q)
  | PyList (l : list Q).

(** numpy arrays by number of dimensions, as far as the source builds
    them. *)
Inductive ndarray :=
  | Arr0 (x : Q)
  | Arr1 (v : vec)
  | Arr2 (m : matrix).

(** [np.array(v)]. *)
Definition np_array (v : pyval) : ndarray :=
  match v with
  | PyNum q => Arr0 q
  | PyList l => Arr1 l
  end.

(** [np.array([v])]. *)
Definition np_array_of_singleton (v : pyval) : ndarray :=
  match v with
  | PyNum q => Arr1 [q]
  | PyList l => Arr2 [l]
  end.

(** [np.concatenate((a, b))] along the first axis: both arguments must be
    one-dimensional here, since the second always is. *)
Definition np_concatenate (a b : ndarray) : result vec :=
  match a, b with
  | Arr1 u, Arr1 v => Ok (u ++ v)
  | _, _ => Raise ValueError
  end.

(** [_learning_factor]. *)
Definition _learning_factor (weight_value : Q) : Q := np_square weight_value.

(** ** A small instance of the parameters

    To run the functions on concrete inputs: the state of each network
    counts the updates applied to it, the encoder answers [[1; 1]], the
    predictor answers [0]; a shuffle reverses, a sample takes a prefix. *)

Definition toy_lstm_initialize (Nf hidden : Z) : nat := 0%nat.
Definition toy_lstm_forward (s : nat) (x_mat : matrix) : result (nat * vec) :=
  Ok (s, [1; 1]).
Definition toy_lstm_backward (s : nat) (back_el : vec) (lf : Q) : result nat :=
  Ok (S s).
Definition toy_dnn_initialize (widths : list Z) : nat := 0%nat.
Definition toy_dnn_forward (s : nat) (v : vec) : result (nat * Q) := Ok (s, 0).
Definition toy_dnn_backward (s : nat) (dy : Q) : result (nat * vec) :=
  Ok (S s, [dy]).
Definition toy_shuffle (g : unit) (l : list item) : unit * list item :=
  (g, reverse l).
Definition toy_sample (g : unit) (l : list item) (n : nat) : unit * list item :=
  (g, take n l).
Definition toy_metrics (Y_true Y_pred : list Z) : vec * vec * vec * list Z :=
  ([], [], [], []).

Definition toy_neg : item := ("a"%string, ([[1; 2; 3]], [1; 2; 3; 4; 5], Some (-1))).
Definition toy_pos : item := ("b"%string, ([], [5; 4; 3; 2; 1], Some 1)).
Definition toy_half : item := ("c"%string, ([], [0; 0; 0; 0; 0], Some (1 # 2))).
Definition toy_zero : item := ("d"%string, ([[1; 2; 3]], [1; 2; 3; 4; 5], Some 0)).
Definition toy_short : item := ("e"%string, ([], [1; 2], Some 1)).
Definition toy_dict : gmap string entry :=
  <["a"%string := toy_neg.2]> {["d"%string := toy_zero.2]}.

(** ** The collaborators and the world *)

Section Learning.

(** The sequence encoder ([lstm.LSTM]) and the scalar predictor
    ([nn_base.DNN]): opaque states with the operations learning.py calls.
    Each call may raise; the object is then left as it was. *)
Variables LSTM DNN : Type.
Variable lstm_initialize : Z → Z → LSTM.
Variable lstm_forward : LSTM → matrix → result (LSTM * vec).
Variable lstm_backward_adadelta : LSTM → vec → Q → result LSTM.
Variable dnn_initialize : list Z → DNN.
Variable dnn_forward : DNN → vec → result (DNN * Q).
Variable dnn_backward_adadelta : DNN → Q → result (DNN * vec).

(** The state of the generators behind [random] and [np.random], and the
    three draws the source makes. *)
Variable RNG : Type.
Variable random_shuffle : RNG → list item → RNG * list item.
Variable random_sample_draw : RNG → list item → nat → RNG * list item.
Variable np_random_shuffle : RNG → list item → RNG * list item.

(** [sklearn.metrics.precision_recall_fscore_support(y_true, y_pred)]. *)
Variable precision_recall_fscore_support :
  list Z → list Z → vec * vec * vec * list Z.

(** What the library guarantees of the draws: a shuffle permutes; a sample
    of [n ≤ len] elements picks [n] distinct positions. *)
Hypothesis random_shuffle_perm : ∀ g l, (random_shuffle g l).2 ≡ₚ l.
Hypothesis np_random_shuffle_perm : ∀ g l, (np_random_shuffle g l).2 ≡ₚ l.
Hypothesis random_sample_draw_sub :
  ∀ g l n, n ≤ length l → (random_sample_draw g l n).2 ⊆+ l.
Hypothesis random_sample_draw_length :
  ∀ g l n, n ≤ length l → length (random_sample_draw g l n).2 = n.

(** A call on one of the two networks, with its arguments. *)
Inductive call :=
  | LstmForward (x_mat : matrix)
  | LstmBackward (back_el : vec) (learning_factor : Q)
  | NnetForward (nnet_input : vec)
  | NnetBackward (dy : Q).

Definition is_lstm_call (c : call) : bool :=
  match c with
  | LstmForward _ | LstmBackward _ _ => true
  | _ => false
  end.

Definition is_lstm_backward (c : call) : bool :=
  match c with
  | LstmBackward _ _ => true
  | _ => false
  end.

Definition is_nnet_call (c : call) : bool :=
  match c with
  | NnetForward _ | NnetBackward _ => true
  | _ => false
  end.

Record world := World {
  w_lstm : LSTM;
  w_nnet : DNN;
  w_rng : RNG;
  w_log : list call
}.

(** Computations: a state transformer on the world that returns a value or
    raises. *)
Definition Py (A : Type) : Type := world → world * result A.

Definition py_ret {A} (a : A) : Py A := λ w, (w, Ok a).

Definition py_bind {A B} (m : Py A) (f : A → Py B) : Py B := λ w,
  match m w with
  | (w', Ok a) => f a w'
  | (w', Raise e) => (w', Raise e)
  end.

Definition raise {A} (e : exn) : Py A := λ w, (w, Raise e).

Definition lift {A} (r : result A) : Py A := λ w, (w, r).

Notation "x <- m ;; k" := (py_bind m (λ x, k))
  (at level 100, m at next level, right associativity, only parsing).
Notation "m ;; k" := (py_bind m (λ _, k))
  (at level 100, right associativity, only parsing).

Definition log_call (c : call) : Py unit := λ w,
  (World (w_lstm w) (w_nnet w) (w_rng w) (w_log w ++ [c]), Ok tt).

(** [lstm = LSTM(); lstm.initialize(Nf, M)]. *)
Definition new_lstm (Nf hidden : Z) : Py unit := λ w,
  (World (lstm_initialize Nf hidden) (w_nnet w) (w_rng w) (w_log w), Ok tt).

(** [nnet = DNN(); nnet.initialize(widths)]. *)
Definition new_nnet (widths : list Z) : Py unit := λ w,
  (World (w_lstm w) (dnn_initialize widths) (w_rng w) (w_log w), Ok tt).

(** [lstm.forward(x_mat)]. *)
Definition call_lstm_forward (x_mat : matrix) : Py vec :=
  log_call (LstmForward x_mat) ;;
  λ w, match lstm_forward (w_lstm w) x_mat with
       | Ok (s, Y) => (World s (w_nnet w) (w_rng w) (w_log w), Ok Y)
       | Raise e => (w, Raise e)
       end.

(** [lstm.backward_adadelta(back_el, learning_factor=learning_factor)]. *)
Definition call_lstm_backward (back_el : vec) (learning_factor : Q) : Py unit :=
  log_call (LstmBackward back_el learning_factor) ;;
  λ w, match lstm_backward_adadelta (w_lstm w) back_el learning_factor with
       | Ok s => (World s (w_nnet w) (w_rng w) (w_log w), Ok tt)
       | Raise e => (w, Raise e)
       end.

(** [nnet.forward(nnet_input)]. *)
Definition call_nnet_forward (nnet_input : vec) : Py Q :=
  log_call (NnetForward nnet_input) ;;
  λ w, match dnn_forward (w_nnet w) nnet_input with
       | Ok (s, y) => (World (w_lstm w) s (w_rng w) (w_log w), Ok y)
       | Raise e => (w, Raise e)
       end.

(** [nnet.backward_adadelta(dy)]. *)
Definition call_nnet_backward (dy : Q) : Py vec :=
  log_call (NnetBackward dy) ;;
  λ w, match dnn_backward_adadelta (w_nnet w) dy with
       | Ok (s, bp) => (World (w_lstm w) s (w_rng w) (w_log w), Ok bp)
       | Raise e => (w, Raise e)
       end.

(** [random.shuffle(l)], returning the list as it is afterwards. *)
Definition py_random_shuffle (l : list item) : Py (list item) := λ w,
  let '(g, l') := random_shuffle (w_rng w) l in
  (World (w_lstm w) (w_nnet w) g (w_log w), Ok l').

(** [np.random.shuffle(l)]. *)
Definition py_np_random_shuffle (l : list item) : Py (list item) := λ w,
  let '(g, l') := np_random_shuffle (w_rng w) l in
  (World (w_lstm w) (w_nnet w) g (w_log w), Ok l').

(** [random.sample(population, n)]: [ValueError] when the sample is larger
    than the population. *)
Definition py_random_sample (population : list item) (n : nat) : Py (list item) :=
  if decide (n ≤ length population) then
    λ w, let '(g, l') := random_sample_draw (w_rng w) population n in
         (World (w_lstm w) (w_nnet w) g (w_log w), Ok l')
  else raise ValueError.

(** [for x in l: s = body(x, s)]. *)
Fixpoint for_each {A S} (l : list A) (body : A → S → Py S) (s : S) : Py S :=
  match l with
  | [] => py_ret s
  | x :: l' => s' <- body x s ;; for_each l' body s'
  end.

(** ** [_train_nn_with_k_lstm_bits] *)

(** The body of the loop over [data_list] (lines 118-165).  The loop
    carries [(errors, learning_factor)]. *)
Definition train_item (k : option Z) (quality : bool)
    (fix_bit_val : option pyval) (weighted_learning : bool)
    (it : item) (st : list Q * Q) : Py (list Q * Q) :=
  let '(errors, learning_factor) := st in
  let '(author, (x_mat, fy, yt)) := it in
  if py_not yt then py_ret st else
  Y <- (if k_pos_or_none k && is_None fix_bit_val
        then call_lstm_forward x_mat else py_ret []) ;;
  nnet_input <- lift (match fix_bit_val with
                      | None => np_concatenate (Arr1 (slice_to k Y)) (Arr1 fy)
                      | Some v => np_concatenate (np_array v) (Arr1 fy)
                      end) ;;
  y <- call_nnet_forward nnet_input ;;
  ytv <- lift (label_value yt) ;;
  let yt := if k_pos_or_none k && quality then normalize ytv else ytv in
  let e := (y - yt) ^ 2 in
  let dy := 2 * (y - yt) in
  let errors := errors ++ [e] in
  bp_res <- call_nnet_backward dy ;;
  if k_pos_or_none k then
    let back_el := np_zeros (length Y) in
    let bp_res := np_resize bp_res (length Y) in
    let back_el := assign_slice_to k back_el bp_res in
    learning_factor <-
      (if weighted_learning then
         a <- lift (getitem fy 3) ;;
         b <- lift (getitem fy 4) ;;
         let update_size := np_average [a; b] in
         py_ret (_learning_factor update_size)
       else py_ret learning_factor) ;;
    call_lstm_backward back_el learning_factor ;;
    py_ret (errors, learning_factor)
  else py_ret (errors, learning_factor).

(** One pass of the loop over [range(N)] (lines 109-177).  It carries the
    list as shuffled so far, [errors] (unbound before the first pass) and
    [learning_factor]. *)
Definition train_iteration (k : option Z) (quality : bool)
    (fix_bit_val : option pyval) (weighted_learning : bool)
    (st : list item * option (list Q) * Q) :
    Py (list item * option (list Q) * Q) :=
  let '(data_list, _, learning_factor) := st in
  data_list <- py_random_shuffle data_list ;;
  r <- for_each data_list
         (train_item k quality fix_bit_val weighted_learning)
         ([], learning_factor) ;;
  py_ret (data_list, Some r.1, r.2).

Definition _train_nn_with_k_lstm_bits (data_list : list item) (k : option Z)
    (N : Z) (quality : bool) (fix_bit_val : option pyval)
    (weighted_learning : bool) : Py (LSTM * DNN * list Q) :=
  let Nf := if quality then Nf_quality else Nf_existence in
  new_lstm Nf M ;;
  let learning_factor := 1 in
  new_nnet (match k with
            | Some k => [k + 12; k + 12 + M `div` 2; 1]
            | None => [12 + 12; 12 + 12 + M `div` 2; 1]
            end)%Z ;;
  st <- for_each (seqZ 0 N)
          (λ _, train_iteration k quality fix_bit_val weighted_learning)
          (data_list, None, learning_factor) ;;
  match st.1.2 with
  | None => raise UnboundLocalError
  | Some errors => λ w, (w, Ok (w_lstm w, w_nnet w, errors))
  end.

(** ** [_test_nn_with_k_lstm_bits] *)

(** The body of the loop over the items (lines 221-254); [lstm] and
    [nnet] are the two networks of the world.  The loop carries
    [(errors, y_pred, y_true, label_weights)]. *)
Definition test_item (k : option Z) (quality : bool)
    (fix_bit_val : option pyval) (it : item)
    (acc : list Q * list Q * list Q * list Q) :
    Py (list Q * list Q * list Q * list Q) :=
  let '(errors, y_pred, y_true, label_weights) := acc in
  let '(author, (x_mat, fy, yt)) := it in
  if py_not yt then py_ret acc else
  Y <- (if k_pos_or_none k && is_None fix_bit_val
        then call_lstm_forward x_mat else py_ret []) ;;
  nnet_input <- lift (match fix_bit_val with
                      | None => np_concatenate (Arr1 (slice_to k Y)) (Arr1 fy)
                      | Some v =>
                          np_concatenate (np_array_of_singleton v) (Arr1 fy)
                      end) ;;
  y <- call_nnet_forward nnet_input ;;
  ytv <- lift (label_value yt) ;;
  let yt := if k_gt_0 k || (is_None k && quality)
            then normalize ytv else ytv in
  let e := (y - yt) ^ 2 in
  let errors := errors ++ [e] in
  let y_pred := y_pred ++ [y] in
  let y_true := y_true ++ [yt] in
  a <- lift (getitem fy 3) ;;
  b <- lift (getitem fy 4) ;;
  let update_size := np_average [a; b] in
  let label_weights := label_weights ++ [update_size] in
  py_ret (errors, y_pred, y_true, label_weights).

Definition _test_nn_with_k_lstm_bits (test_data : gmap string entry)
    (k : option Z) (quality : bool) (fix_bit_val : option pyval) :
    Py (list Q * list Q * list Q * list Q) :=
  let items := map_to_list test_data in
  for_each items (test_item k quality fix_bit_val) ([], [], [], []).

(** ** [_expand_to_all] and [_rebalance_data] *)

(** The inner loop [for row in x_mat] (lines 330-331). *)
Fixpoint expand_rows (author : string) (x_mat : matrix)
    (new_items : list item) : result (list item) :=
  match x_mat with
  | [] => Ok new_items
  | row :: x_mat' =>
      result_bind (getitem_last row) (λ lab,
        expand_rows author x_mat'
          (new_items ++ [(author, ([], drop_last2 row, Some lab))]))
  end.

(** The outer loop (lines 328-333). *)
Fixpoint expand_loop (items : list item) (new_items : list item) :
    result (list item) :=
  match items with
  | [] => Ok new_items
  | (author, (x_mat, fy, yt)) :: items' =>
      result_bind (expand_rows author x_mat new_items) (λ new_items,
      result_bind (label_value yt) (λ ytv,
        let yt := normalize ytv in
        expand_loop items' (new_items ++ [(author, ([], fy, Some yt))])))
  end.

Definition _expand_to_all (items : list item) : result (list item) :=
  expand_loop items [].

(** The two conditions of the list comprehensions: [yt < 0.5] and
    [yt > 0.5] on the label of an item. *)
Definition is_neg (it : item) : bool := py_lt (item_label it) (1 # 2).
Definition is_pos (it : item) : bool := py_gt (item_label it) (1 # 2).

Definition _rebalance_data (items : list item) : Py (list item) :=
  let neg_items := filter is_neg items in
  let pos_items := filter is_pos items in
  r <- (if decide (length neg_items ≤ length pos_items)
        then pos_items <- py_random_sample pos_items (length neg_items) ;;
             py_ret (neg_items, pos_items)
        else neg_items <- py_random_sample neg_items (length pos_items) ;;
             py_ret (neg_items, pos_items)) ;;
  let new_items := r.1 ++ r.2 in
  for_each (seq 0 5) (λ _ l, py_np_random_shuffle l) new_items.

(** ** The entry points *)

(** [train_nn_using_k_lstm_bit] with [store=False]. *)
Definition train_nn_using_k_lstm_bit (train_dict : gmap string entry)
    (k : option Z) (N : Z) (quality : bool) (fix_bit_val : option pyval)
    (weighted_learning : bool) (balanced : bool) : Py (LSTM * DNN) :=
  let train_items := map_to_list train_dict in
  train_items <- (if balanced then _rebalance_data train_items
                  else py_ret train_items) ;;
  r <- _train_nn_with_k_lstm_bits train_items k N quality fix_bit_val
         weighted_learning ;;
  py_ret r.1.

(** The list [train_nn_only] hands to the training loop (lines 382-385). *)
Definition train_nn_only_items (train_dict : gmap string entry) :
    Py (list item) :=
  let train_items := map_to_list train_dict in
  train_items <- lift (_expand_to_all train_items) ;;
  _rebalance_data train_items.

(** [train_nn_only] with [store=False]. *)
Definition train_nn_only (train_dict : gmap string entry) (N : Z)
    (weighted_learning : bool) : Py (LSTM * DNN) :=
  train_items <- train_nn_only_items train_dict ;;
  r <- _train_nn_with_k_lstm_bits train_items (Some 0%Z) N true None
         weighted_learning ;;
  py_ret r.1.

(** [1 if i < 0.5 else 0]. *)
Definition bucket (i : Q) : Z := if Qltb i (1 # 2) then 1%Z else 0%Z.

Definition _error_measurement (y_pred y_true label_weights : list Q) :
    vec * vec * vec :=
  let Y_pred := map bucket y_pred in
  let Y_true := map bucket y_true in
  let '(precision, recall, fscore, support) :=
    precision_recall_fscore_support Y_true Y_pred in
  (precision, recall, fscore).

(** [test_nn_using_k_lstm_bit]; of [locals()] the measurements are
    returned. *)
Definition test_nn_using_k_lstm_bit (test_dict : gmap string entry)
    (k : option Z) (quality : bool) :
    Py (list Q * list Q * list Q * list Q * (vec * vec * vec)) :=
  r <- _test_nn_with_k_lstm_bits test_dict k quality None ;;
  let '(errors, y_pred, y_true, label_weights) := r in
  py_ret (r, _error_measurement y_pred y_true label_weights).

(** [test_nn_only]. *)
Definition test_nn_only (test_dict : gmap string entry)
    (fix_bit_val : option pyval) :
    Py (list Q * list Q * list Q * list Q * (vec * vec * vec)) :=
  r <- _test_nn_with_k_lstm_bits test_dict (Some 0%Z) true fix_bit_val ;;
  let '(errors, y_pred, y_true, label_weights) := r in
  py_ret (r, _error_measurement y_pred y_true label_weights).

(** ** Reasoning about computations *)

(** [holds R Q m]: from every world, [m] ends in a world related by [R]
    to the one it started in, and a value it returns satisfies [Q]. *)
Definition holds {A} (R : relation world) (Q : A → Prop) (m : Py A) : Prop :=
  ∀ w, R w (m w).1 ∧ ∀ a, (m w).2 = Ok a → Q a.

(** The calls logged from [w] to [w'] all satisfy [P]. *)
Definition grows (P : call → Prop) (w w' : world) : Prop :=
  ∃ l, w_log w' = w_log w ++ l ∧ Forall P l.

(** From [w] to [w'] the calls logged satisfy [P], and the encoder is as
    it was when [keep_lstm] holds. *)
Definition tracks (P : call → Prop) (keep_lstm : Prop) (w w' : world) : Prop :=
  grows P w w' ∧ (keep_lstm → w_lstm w' = w_lstm w).

(** The calls logged from [w] to [w']. *)
Definition new_calls (w w' : world) : list call :=
  drop (length (w_log w)) (w_log w').

(** From [w] to [w'] neither network was called. *)
Definition networks_idle (w w' : world) : Prop :=
  w_lstm w' = w_lstm w ∧ w_nnet w' = w_nnet w ∧ w_log w' = w_log w.

(** What one evaluation step may log: forward calls only, the encoder's
    only when its bits are asked for and no fixed bit value is given. *)
Definition test_call_ok (k : option Z) (fix_bit_val : option pyval)
    (c : call) : Prop :=
  match c with
  | LstmForward _ => k_pos_or_none k = true ∧ fix_bit_val = None
  | NnetForward _ => True
  | _ => False
  end.

(** The items the two loops do not skip: [not yt] is false. *)
Definition usable (it : item) : bool := negb (py_not (item_label it)).

(** An item [_expand_to_all] takes without raising: a numeric label and no
    row without a field. *)
Definition expandable (it : item) : Prop :=
  Forall (λ row, row ≠ []) it.2.1.1 ∧ is_Some (item_label it).

Section Holds.

Context (R : relation world) `{!PreOrder R}.

Lemma holds_ret {A} (Q : A → Prop) a : Q a → holds R Q (py_ret a).
Proof. intros HQ w. split; [reflexivity|]. simpl. by intros ? [= <-]. Qed.

Lemma holds_raise {A} (Q : A → Prop) e : holds R Q (raise e).
Proof. intros w. split; [reflexivity|]. by simpl. Qed.

Lemma holds_lift {A} (Q : A → Prop) r :
  (∀ a, r = Ok a → Q a) → holds R Q (lift r).
Proof. intros HQ w. split; [reflexivity|]. simpl. auto. Qed.

Lemma holds_bind {A B} (P : A → Prop) (Q : B → Prop) m (f : A → Py B) :
  holds R P m → (∀ a, P a → holds R Q (f a)) → holds R Q (py_bind m f).
Proof.
  intros Hm Hf w. unfold py_bind.
  destruct (Hm w) as [HR HP]. destruct (m w) as [w1 [a|e]]; simpl in *.
  - destruct (Hf a (HP a eq_refl) w1) as [HR' HQ].
    split; [by etrans|done].
  - by split.
Qed.

Lemma holds_weaken {A} (P Q : A → Prop) m :
  holds R P m → (∀ a, P a → Q a) → holds R Q m.
Proof. intros Hm HPQ w. destruct (Hm w). split; auto. Qed.

Lemma holds_for_each {A S} (I : S → Prop) (l : list A) body s :
  (∀ x s, x ∈ l → I s → holds R I (body x s)) →
  I s → holds R I (for_each l body s).
Proof.
  revert s. induction l as [|x l IH]; intros s Hbody Hs; simpl.
  - by apply holds_ret.
  - eapply holds_bind.
    + apply Hbody; [left|done].
    + intros s' Hs'. apply IH; [|done].
      intros y t Hy. apply Hbody. by right.
Qed.

End Holds.

Global Instance grows_preorder P : PreOrder (grows P).
Proof.
  split.
  - intros w. exists []. by rewrite app_nil_r.
  - intros w1 w2 w3 (l1 & E1 & H1) (l2 & E2 & H2).
    exists (l1 ++ l2). rewrite E2, E1, <-(assoc_L (++)).
    split; [done|]. by apply Forall_app.
Qed.

Global Instance tracks_preorder P keep_lstm : PreOrder (tracks P keep_lstm).
Proof.
  split.
  - intros w. split; [reflexivity|done].
  - intros w1 w2 w3 [H1 E1] [H2 E2]. split; [by etrans|].
    intros Hk. by rewrite E2, E1.
Qed.

Global Instance networks_idle_preorder : PreOrder networks_idle.
Proof.
  split.
  - by intros w.
  - intros w1 w2 w3 (?&?&?) (?&?&?). repeat split; congruence.
Qed.

(** ** Labels and comparisons *)

Lemma Qltb_lt a b : Qltb a b = true ↔ a < b.
Proof.
  unfold Qltb. rewrite negb_true_iff, <-not_true_iff_false, Qle_bool_iff.
  split; [apply Qnot_le_lt|apply Qlt_not_le].
Qed.

Lemma is_neg_not_pos it : is_neg it → ¬ is_pos it.
Proof.
  unfold is_neg, is_pos. destruct (item_label it) as [q|]; simpl; [|tauto].
  rewrite !Is_true_true, !Qltb_lt. intros H1 H2.
  exact (Qlt_irrefl _ (Qlt_trans _ _ _ H1 H2)).
Qed.

Lemma is_pos_not_neg it : is_pos it → ¬ is_neg it.
Proof. intros H1 H2. by apply (is_neg_not_pos it). Qed.

Lemma half_not_neg it q : item_label it = Some q → q == 1 # 2 → ¬ is_neg it.
Proof.
  unfold is_neg. intros -> Hq. simpl. rewrite Is_true_true, Qltb_lt, Hq.
  apply Qlt_irrefl.
Qed.

Lemma half_not_pos it q : item_label it = Some q → q == 1 # 2 → ¬ is_pos it.
Proof.
  unfold is_pos. intros -> Hq. simpl. rewrite Is_true_true, Qltb_lt, Hq.
  apply Qlt_irrefl.
Qed.

(** ** Lists: filters of disjoint conditions *)

Lemma filter_all {A} (P : A → Prop) `{!∀ x, Decision (P x)} (l : list A) :
  Forall P l → filter P l = l.
Proof.
  induction 1 as [|x l Hx _ IH]; [done|].
  by rewrite filter_cons_True, IH.
Qed.

Lemma filter_none {A} (P : A → Prop) `{!∀ x, Decision (P x)} (l : list A) :
  Forall (λ x, ¬ P x) l → filter P l = [].
Proof.
  induction 1 as [|x l Hx _ IH]; [done|].
  by rewrite filter_cons_False.
Qed.

Lemma filter_disjoint_submseteq {A} (P Q : A → Prop)
    `{!∀ x, Decision (P x)} `{!∀ x, Decision (Q x)} (l : list A) :
  (∀ x, P x → ¬ Q x) → filter P l ++ filter Q l ⊆+ l.
Proof.
  intros HPQ. induction l as [|x l IH]; [done|].
  destruct (decide (P x)) as [HP|HP].
  - rewrite filter_cons_True, (filter_cons_False Q) by auto.
    simpl. by constructor.
  - rewrite (filter_cons_False P) by done.
    destruct (decide (Q x)) as [HQ|HQ].
    + rewrite filter_cons_True by done.
      rewrite <-Permutation_middle. by constructor.
    + rewrite filter_cons_False by done. by apply submseteq_cons.
Qed.

(** ** [_rebalance_data]: what it returns from any world *)

Lemma np_shuffles_spec (ns : list nat) (l : list item) w :
  ∃ w' l', for_each ns (λ _ l, py_np_random_shuffle l) l w = (w', Ok l')
           ∧ l' ≡ₚ l ∧ networks_idle w w'.
Proof.
  revert l w. induction ns as [|n ns IH]; intros l w; simpl.
  - by exists w, l.
  - unfold py_bind at 1, py_np_random_shuffle at 1.
    pose proof (np_random_shuffle_perm (w_rng w) l) as Hp.
    destruct (np_random_shuffle (w_rng w) l) as [g l1]; simpl in Hp.
    destruct (IH l1 (World (w_lstm w) (w_nnet w) g (w_log w)))
      as (w' & l' & E & Hp' & H1 & H2 & H3).
    exists w', l'. split; [exact E|]. split; [by etrans|]. done.
Qed.

Lemma random_sample_spec (population : list item) n w :
  n ≤ length population →
  ∃ w' l, py_random_sample population n w = (w', Ok l)
          ∧ l ⊆+ population ∧ length l = n ∧ networks_idle w w'.
Proof.
  intros Hn. unfold py_random_sample. rewrite decide_True by done.
  pose proof (random_sample_draw_sub (w_rng w) population n Hn) as Hs.
  pose proof (random_sample_draw_length (w_rng w) population n Hn) as Hl.
  destruct (random_sample_draw (w_rng w) population n) as [g l]; simpl in *.
  by eexists _, l.
Qed.

Lemma rebalance_spec (items : list item) w :
  ∃ w' out neg_items pos_items,
    _rebalance_data items w = (w', Ok out)
    ∧ out ≡ₚ neg_items ++ pos_items
    ∧ neg_items ⊆+ filter is_neg items
    ∧ pos_items ⊆+ filter is_pos items
    ∧ length neg_items = length pos_items
    ∧ (length (filter is_neg items) ≤ length (filter is_pos items) →
       neg_items = filter is_neg items)
    ∧ ((length (filter is_pos items) < length (filter is_neg items))%nat →
       pos_items = filter is_pos items)
    ∧ networks_idle w w'.
Proof.
  unfold _rebalance_data.
  set (neg := filter is_neg items). set (pos := filter is_pos items).
  destruct (decide (length neg ≤ length pos)) as [Hle|Hgt].
  - destruct (random_sample_spec pos (length neg) w Hle)
      as (w1 & l & E & Hsub & Hlen & Hidle).
    destruct (np_shuffles_spec (seq 0 5) (neg ++ l) w1)
      as (w' & out & E' & Hp & Hidle').
    exists w', out, neg, l. unfold py_bind at 1 2. rewrite E. simpl.
    split; [exact E'|]. split_and!; [done..|lia|by etrans].
  - assert (length pos ≤ length neg) as Hle by lia.
    destruct (random_sample_spec neg (length pos) w Hle)
      as (w1 & l & E & Hsub & Hlen & Hidle).
    destruct (np_shuffles_spec (seq 0 5) (l ++ pos) w1)
      as (w' & out & E' & Hp & Hidle').
    exists w', out, l, pos. unfold py_bind at 1 2. rewrite E. simpl.
    split; [exact E'|]. split_and!; [done|done|done|done|lia|done|by etrans].
Qed.

Lemma submseteq_filter_Forall {A} (P : A → Prop) `{!∀ x, Decision (P x)}
    (l items : list A) :
  l ⊆+ filter P items → Forall P l.
Proof.
  intros Hsub. apply Forall_forall. intros x Hx.
  pose proof (elem_of_submseteq _ _ _ Hx Hsub) as Hin.
  by apply list_elem_of_filter in Hin as [? _].
Qed.

Lemma rebalance_submseteq (items : list item) w :
  ∃ w' out, _rebalance_data items w = (w', Ok out) ∧ out ⊆+ items.
Proof.
  destruct (rebalance_spec items w)
    as (w' & out & neg & pos & E & Hp & Hneg & Hpos & _).
  exists w', out. split; [done|]. rewrite Hp.
  trans (filter is_neg items ++ filter is_pos items).
  - by apply submseteq_app.
  - apply filter_disjoint_submseteq, is_neg_not_pos.
Qed.

(** C3. The output of [_rebalance_data] holds as many items with a label
    below 0.5 as items with a label above 0.5, whatever the input and the
    draws; and it is the empty list when one of the two classes is empty
    in the input. *)
Theorem rebalance_balanced (items : list item) w :
  ∃ w' out, _rebalance_data items w = (w', Ok out)
    ∧ length (filter is_neg out) = length (filter is_pos out)
    ∧ (filter is_neg items = [] ∨ filter is_pos items = [] → out = []).
Proof.
  destruct (rebalance_spec items w)
    as (w' & out & neg & pos & E & Hp & Hneg & Hpos & Hlen & _).
  exists w', out. split; [done|].
  pose proof (submseteq_filter_Forall _ _ _ Hneg) as Fneg.
  pose proof (submseteq_filter_Forall _ _ _ Hpos) as Fpos.
  split.
  - rewrite Hp, !filter_app.
    rewrite (filter_all is_neg neg), (filter_all is_pos pos) by done.
    rewrite (filter_none is_neg pos), (filter_none is_pos neg).
    + by rewrite app_nil_r.
    + eapply Forall_impl; [exact Fneg|]. apply is_neg_not_pos.
    + eapply Forall_impl; [exact Fpos|]. apply is_pos_not_neg.
  - intros [E0|E0]; rewrite E0 in *.
    + apply submseteq_nil_r in Hneg as ->.
      symmetry in Hlen. apply nil_length_inv in Hlen as ->.
      by apply Permutation_nil_r in Hp.
    + apply submseteq_nil_r in Hpos as ->.
      apply nil_length_inv in Hlen as ->.
      by apply Permutation_nil_r in Hp.
Qed.

(** C5. Every item of the output of [_rebalance_data] is an item of its
    input, and the output is no longer than the input. *)
Theorem rebalance_subset (items : list item) w :
  ∃ w' out, _rebalance_data items w = (w', Ok out)
    ∧ (∀ it, it ∈ out → it ∈ items)
    ∧ length out ≤ length items.
Proof.
  destruct (rebalance_submseteq items w) as (w' & out & E & Hsub).
  exists w', out. split; [done|]. split.
  - intros it Hit. by eapply elem_of_submseteq.
  - by apply submseteq_length.
Qed.

Lemma rebalance_drops_half (items : list item) w w' out it q :
  _rebalance_data items w = (w', Ok out) →
  item_label it = Some q → q == 1 # 2 → it ∉ out.
Proof.
  intros E Hq Hhalf Hit.
  destruct (rebalance_spec items w)
    as (w1 & out1 & neg & pos & E1 & Hp & Hneg & Hpos & _).
  rewrite E in E1. injection E1 as <- <-.
  rewrite Hp in Hit. apply elem_of_app in Hit as [Hit|Hit].
  - apply submseteq_filter_Forall in Hneg.
    rewrite Forall_forall in Hneg. by eapply half_not_neg, Hneg.
  - apply submseteq_filter_Forall in Hpos.
    rewrite Forall_forall in Hpos. by eapply half_not_pos, Hpos.
Qed.

(** ** [_expand_to_all] *)

Definition result_map {A B} (f : A → B) (r : result A) : result B :=
  result_bind r (λ a, Ok (f a)).

Lemma expand_rows_acc author x_mat acc :
  expand_rows author x_mat acc
  = result_map (app acc) (expand_rows author x_mat []).
Proof.
  revert acc. induction x_mat as [|row x_mat IH]; intros acc; simpl.
  - by rewrite app_nil_r.
  - destruct (getitem_last row) as [lab|e]; simpl; [|done].
    rewrite (IH (acc ++ _)), (IH [_]).
    destruct (expand_rows author x_mat []) as [r|e]; simpl; [|done].
    by rewrite <-(assoc_L (++)).
Qed.

Lemma expand_loop_acc items acc :
  expand_loop items acc = result_map (app acc) (expand_loop items []).
Proof.
  revert acc. induction items as [|[author [[x_mat fy] yt]] items IH];
    intros acc; simpl.
  - by rewrite app_nil_r.
  - rewrite (expand_rows_acc _ _ acc).
    destruct (expand_rows author x_mat []) as [r|e]; simpl; [|done].
    destruct (label_value yt) as [ytv|e]; simpl; [|done].
    rewrite (IH ((acc ++ r) ++ _)), (IH (r ++ _)).
    destruct (expand_loop items []) as [r'|e]; simpl; [|done].
    by rewrite <-!(assoc_L (++)).
Qed.

Lemma expand_loop_app items1 items2 acc :
  expand_loop (items1 ++ items2) acc
  = result_bind (expand_loop items1 acc) (expand_loop items2).
Proof.
  revert acc. induction items1 as [|[author [[x_mat fy] yt]] items1 IH];
    intros acc; simpl; [done|].
  destruct (expand_rows author x_mat acc) as [r|e]; simpl; [|done].
  destruct (label_value yt) as [ytv|e]; simpl; [|done].
  apply IH.
Qed.

Lemma expand_app items1 items2 :
  _expand_to_all (items1 ++ items2)
  = result_bind (_expand_to_all items1) (λ r1,
      result_map (app r1) (_expand_to_all items2)).
Proof.
  unfold _expand_to_all. rewrite expand_loop_app.
  destruct (expand_loop items1 []) as [r1|e]; simpl; [|done].
  apply expand_loop_acc.
Qed.

(** The examples one entry expands to, when every row has a field. *)
Lemma expand_rows_ok author (x_mat : matrix) :
  Forall (λ row, row ≠ []) x_mat →
  ∃ exs, expand_rows author x_mat [] = Ok exs
    ∧ length exs = length x_mat
    ∧ ∀ i row, x_mat !! i = Some row →
        ∃ lab, last row = Some lab
          ∧ exs !! i = Some (author, ([], drop_last2 row, Some lab)).
Proof.
  induction 1 as [|row x_mat Hrow _ (exs & E & Hlen & Hex)]; simpl.
  - exists []. split_and!; [done..|]. by intros i row.
  - unfold getitem_last.
    destruct (last row) as [lab|] eqn:Hlast;
      [|by apply last_None in Hlast].
    simpl. rewrite expand_rows_acc, E. simpl.
    eexists. split; [done|]. split; [simpl; by rewrite Hlen|].
    intros [|i] row' Hi; simpl in *.
    + injection Hi as <-. by exists lab.
    + by apply Hex.
Qed.

Lemma expand_entry_ok author (x_mat : matrix) fy (yt : Q) :
  Forall (λ row, row ≠ []) x_mat →
  ∃ exs, _expand_to_all [(author, (x_mat, fy, Some yt))]
         = Ok (exs ++ [(author, ([], fy, Some (normalize yt)))])
    ∧ length exs = length x_mat
    ∧ ∀ i row, x_mat !! i = Some row →
        ∃ lab, last row = Some lab
          ∧ exs !! i = Some (author, ([], drop_last2 row, Some lab)).
Proof.
  intros Hrows. destruct (expand_rows_ok author x_mat Hrows)
    as (exs & E & Hlen & Hex).
  exists exs. split; [|done].
  unfold _expand_to_all. simpl. by rewrite E.
Qed.

Lemma normalize_eq yt : normalize yt == (yt + 1) / 2.
Proof. unfold normalize. field. Qed.


Lemma expand_singleton_inv author x_mat fy yt r :
  _expand_to_all [(author, (x_mat, fy, yt))] = Ok r →
  ∃ exs ytv, yt = Some ytv
    ∧ r = exs ++ [(author, ([], fy, Some (normalize ytv)))].
Proof.
  unfold _expand_to_all. simpl.
  destruct (expand_rows author x_mat []) as [exs|e]; simpl; [|done].
  destruct yt as [ytv|]; simpl; [|done].
  intros [= <-]. by exists exs, ytv.
Qed.

Lemma expand_elem_of items author x_mat fy (yt : Q) expanded :
  (author, (x_mat, fy, Some yt)) ∈ items →
  _expand_to_all items = Ok expanded →
  (author, ([], fy, Some (normalize yt))) ∈ expanded.
Proof.
  intros (pre & post & ->)%list_elem_of_split.
  change (?x :: post) with ([x] ++ post).
  rewrite (expand_app pre), (expand_app [_]).
  destruct (_expand_to_all pre) as [r1|e]; simpl; [|done].
  destruct (_expand_to_all [_]) as [r2|e] eqn:E2; simpl; [|done].
  destruct (_expand_to_all post) as [r3|e]; simpl; [|done].
  intros [= <-].
  apply expand_singleton_inv in E2 as (exs & ytv & [= <-] & ->).
  rewrite !elem_of_app, list_elem_of_singleton. auto.
Qed.

(** C10. [_rebalance_data] returns no item whose label is exactly 0.5;
    so, on the way into [train_nn_only]'s training loop, the
    current-revision example of an entry labelled 0, which
    [_expand_to_all] relabels 0.5, is among the expanded items and not
    among the rebalanced ones. *)
Theorem rebalance_drops_label_half :
  (∀ items w w' out it q,
     _rebalance_data items w = (w', Ok out) →
     item_label it = Some q → q == 1 # 2 → it ∉ out)
  ∧ (∀ (train_dict : gmap string entry) author x_mat fy yt w w' out,
       train_dict !! author = Some (x_mat, fy, Some yt) → yt == 0 →
       train_nn_only_items train_dict w = (w', Ok out) →
       ∃ expanded yt',
         _expand_to_all (map_to_list train_dict) = Ok expanded
         ∧ yt' == 1 # 2
         ∧ (author, ([], fy, Some yt')) ∈ expanded
         ∧ (author, ([], fy, Some yt')) ∉ out).
Proof.
  split; [apply rebalance_drops_half|].
  intros train_dict author x_mat fy yt w w' out Hd Hyt.
  unfold train_nn_only_items, py_bind, lift.
  destruct (_expand_to_all (map_to_list train_dict)) as [expanded|e] eqn:E;
    [|done].
  intros Hreb. exists expanded, (normalize yt).
  assert (normalize yt == 1 # 2) as Hhalf.
  { rewrite normalize_eq, Hyt. reflexivity. }
  split_and!; [done|done| |].
  - eapply expand_elem_of; [|done]. by apply elem_of_map_to_list.
  - by eapply rebalance_drops_half.
Qed.

(** ** The calls a training step and an evaluation step make *)

Ltac hret := apply holds_ret; try tc_solve.
Ltac hlift := apply holds_lift; try tc_solve.
Ltac hbind pre := eapply (holds_bind _ pre); try tc_solve.


Lemma getitem_Ok v i a : getitem v i = Ok a → v !! i = Some a.
Proof. unfold getitem. destruct (v !! i); by intros [= <-]. Qed.

Lemma holds_log_call P keep_lstm c :
  P c → holds (tracks P keep_lstm) (λ _, True) (log_call c).
Proof.
  intros HP w. split; [|done]. unfold log_call; simpl. split; [|done].
  exists [c]. split; [done|]. by constructor.
Qed.

Lemma tracks_quiet P (keep_lstm : Prop) w w' :
  w_log w' = w_log w → (keep_lstm → w_lstm w' = w_lstm w) →
  tracks P keep_lstm w w'.
Proof.
  intros El Es. split; [|done]. exists []. by rewrite app_nil_r.
Qed.

Lemma holds_call_nnet_forward P keep_lstm v :
  P (NnetForward v) →
  holds (tracks P keep_lstm) (λ _, True) (call_nnet_forward v).
Proof.
  intros HP. eapply holds_bind; [tc_solve|by apply holds_log_call|].
  intros _ _ w. split; [|done]. simpl.
  by destruct (dnn_forward (w_nnet w) v) as [[s y]|e]; apply tracks_quiet.
Qed.

Lemma holds_call_nnet_backward P keep_lstm dy :
  P (NnetBackward dy) →
  holds (tracks P keep_lstm) (λ _, True) (call_nnet_backward dy).
Proof.
  intros HP. eapply holds_bind; [tc_solve|by apply holds_log_call|].
  intros _ _ w. split; [|done]. simpl.
  by destruct (dnn_backward_adadelta (w_nnet w) dy) as [[s bp]|e];
    apply tracks_quiet.
Qed.

Lemma holds_call_lstm_forward P (keep_lstm : Prop) x_mat :
  P (LstmForward x_mat) → ¬ keep_lstm →
  holds (tracks P keep_lstm) (λ _, True) (call_lstm_forward x_mat).
Proof.
  intros HP Hk. eapply holds_bind; [tc_solve|by apply holds_log_call|].
  intros _ _ w. split; [|done]. simpl.
  by destruct (lstm_forward (w_lstm w) x_mat) as [[s Y]|e];
    apply tracks_quiet.
Qed.

Lemma holds_call_lstm_backward P (keep_lstm : Prop) back_el lf :
  P (LstmBackward back_el lf) → ¬ keep_lstm →
  holds (tracks P keep_lstm) (λ _, True) (call_lstm_backward back_el lf).
Proof.
  intros HP Hk. eapply holds_bind; [tc_solve|by apply holds_log_call|].
  intros _ _ w. split; [|done]. simpl.
  by destruct (lstm_backward_adadelta (w_lstm w) back_el lf) as [s|e];
    apply tracks_quiet.
Qed.

Lemma holds_random_shuffle P keep_lstm (l : list item) :
  holds (tracks P keep_lstm) (λ l', l' ≡ₚ l) (py_random_shuffle l).
Proof.
  intros w. unfold py_random_shuffle.
  pose proof (random_shuffle_perm (w_rng w) l) as Hp.
  destruct (random_shuffle (w_rng w) l) as [g l']; simpl in *.
  split; [|by intros ? [= <-]]. by apply tracks_quiet.
Qed.

(** What one training step may log: the encoder's forward only when its
    bits are asked for and no fixed bit value is given, on the item's
    history; the encoder's backward only when its bits are asked for, with
    the scale the source computes. *)
Definition train_call_ok (k : option Z) (fix_bit_val : option pyval)
    (weighted_learning : bool) (x_mat : matrix) (fy : vec) (lf : Q)
    (c : call) : Prop :=
  match c with
  | LstmForward x =>
      k_pos_or_none k = true ∧ fix_bit_val = None ∧ x = x_mat
  | LstmBackward _ lf' =>
      k_pos_or_none k = true
      ∧ if weighted_learning
        then ∃ a b, fy !! 3%nat = Some a ∧ fy !! 4%nat = Some b
                    ∧ lf' = _learning_factor (np_average [a; b])
        else lf' = lf
  | _ => True
  end.

Lemma train_item_tracks k quality fix_bit_val weighted_learning
    author x_mat fy yt errors lf :
  holds (tracks (train_call_ok k fix_bit_val weighted_learning x_mat fy lf)
           (k_pos_or_none k = false))
    (λ st, weighted_learning = false → st.2 = lf)
    (train_item k quality fix_bit_val weighted_learning
       (author, (x_mat, fy, yt)) (errors, lf)).
Proof.
  unfold train_item. destruct (py_not yt); [by hret|].
  hbind (λ _ : vec, True).
  { destruct (k_pos_or_none k) eqn:Ek, fix_bit_val as [v|]; simpl;
      try by hret.
    by apply holds_call_lstm_forward. }
  intros Y _. hbind (λ _ : vec, True); [by hlift|].
  intros nnet_input _. hbind (λ _ : Q, True);
    [by apply holds_call_nnet_forward|].
  intros y _. hbind (λ _ : Q, True); [by hlift|].
  intros ytv _. hbind (λ _ : vec, True);
    [by apply holds_call_nnet_backward|].
  intros bp_res _. destruct (k_pos_or_none k) eqn:Ek; [|by hret].
  destruct weighted_learning.
  - hbind (λ lf', ∃ a b, fy !! 3%nat = Some a ∧ fy !! 4%nat = Some b
                         ∧ lf' = _learning_factor (np_average [a; b])).
    { hbind (λ a, fy !! 3%nat = Some a); [hlift; apply getitem_Ok|].
      intros a Ha. hbind (λ b, fy !! 4%nat = Some b);
        [hlift; apply getitem_Ok|].
      intros b Hb. hret. by exists a, b. }
    intros lf' Hlf'. hbind (λ _ : unit, True); [|intros; by hret].
    by apply holds_call_lstm_backward.
  - hbind (λ lf', lf' = lf); [by hret|].
    intros ? ->. hbind (λ _ : unit, True); [|intros; by hret].
    by apply holds_call_lstm_backward.
Qed.

Lemma holds_mono {A} (R R' : relation world) (Q : A → Prop) m :
  (∀ w w', R w w' → R' w w') → holds R Q m → holds R' Q m.
Proof. intros HR Hm w. destruct (Hm w). split; auto. Qed.

Lemma tracks_mono (P P' : call → Prop) keep_lstm w w' :
  (∀ c, P c → P' c) → tracks P keep_lstm w w' → tracks P' keep_lstm w w'.
Proof.
  intros HP [(l & E & Hl) Hk]. split; [|done].
  exists l. split; [done|]. by eapply Forall_impl.
Qed.

(** What a whole training run may log. *)
Definition run_call_ok (k : option Z) (fix_bit_val : option pyval)
    (weighted_learning : bool) (data_list : list item) (c : call) : Prop :=
  match c with
  | LstmForward x =>
      k_pos_or_none k = true ∧ fix_bit_val = None
      ∧ ∃ it, it ∈ data_list ∧ x = it.2.1.1
  | LstmBackward _ lf' =>
      k_pos_or_none k = true
      ∧ if weighted_learning
        then ∃ it a b, it ∈ data_list
               ∧ it.2.1.2 !! 3%nat = Some a ∧ it.2.1.2 !! 4%nat = Some b
               ∧ lf' = _learning_factor (np_average [a; b])
        else lf' = 1
  | _ => True
  end.

Lemma train_call_ok_run k fix_bit_val weighted_learning data_list
    author x_mat fy yt lf c :
  (author, (x_mat, fy, yt)) ∈ data_list →
  (weighted_learning = false → lf = 1) →
  train_call_ok k fix_bit_val weighted_learning x_mat fy lf c →
  run_call_ok k fix_bit_val weighted_learning data_list c.
Proof.
  intros Hin Hlf. destruct c as [x|g lf'| |]; simpl; [| |done..].
  - intros (?&?&->). split_and!; [done..|]. by eexists.
  - intros [? H]. split; [done|]. destruct weighted_learning.
    + destruct H as (a & b & ?&?&?). by eexists _, a, b.
    + rewrite H. by apply Hlf.
Qed.

Lemma train_iteration_tracks k quality fix_bit_val weighted_learning
    data_list st :
  st.1.1 ≡ₚ data_list → (weighted_learning = false → st.2 = 1) →
  holds (tracks (run_call_ok k fix_bit_val weighted_learning data_list)
           (k_pos_or_none k = false))
    (λ st', st'.1.1 ≡ₚ data_list ∧ (weighted_learning = false → st'.2 = 1))
    (train_iteration k quality fix_bit_val weighted_learning st).
Proof.
  destruct st as [[l errors] lf]; simpl. intros Hl Hlf.
  unfold train_iteration.
  hbind (λ l', l' ≡ₚ data_list).
  { eapply holds_weaken; [apply holds_random_shuffle|].
    intros l' Hl'. by rewrite Hl'. }
  intros l' Hl'.
  hbind (λ r : list Q * Q, weighted_learning = false → r.2 = 1).
  - apply (holds_for_each _
      (λ r : list Q * Q, weighted_learning = false → r.2 = 1)); [|done].
    intros [author [[x_mat fy] yt]] [errors' lf'] Hin Hlf'.
    eapply holds_weaken.
    + eapply holds_mono; [|apply train_item_tracks].
      intros w w'. apply tracks_mono. intros c.
      apply train_call_ok_run with author yt; [|done].
      by rewrite <-Hl'.
    + simpl. intros st' Hst' Hw. rewrite Hst' by done. by apply Hlf'.
  - intros r Hr. by hret.
Qed.

(** The training function after its two initialisations. *)
Lemma train_unfold data_list k N quality fix_bit_val weighted_learning w :
  _train_nn_with_k_lstm_bits data_list k N quality fix_bit_val
    weighted_learning w
  = (st <- for_each (seqZ 0 N)
             (λ _, train_iteration k quality fix_bit_val weighted_learning)
             (data_list, None, 1) ;;
     match st.1.2 return Py (LSTM * DNN * list Q) with
     | None => raise UnboundLocalError
     | Some errors => λ w, (w, Ok (w_lstm w, w_nnet w, errors))
     end)
      (World (lstm_initialize (if quality then Nf_quality else Nf_existence) M)
         (dnn_initialize
            (match k with
             | Some k => [k + 12; k + 12 + M `div` 2; 1]
             | None => [12 + 12; 12 + 12 + M `div` 2; 1]
             end)%Z)
         (w_rng w) (w_log w)).
Proof. reflexivity. Qed.

Lemma train_run_tracks data_list k N quality fix_bit_val weighted_learning w :
  let w' := (_train_nn_with_k_lstm_bits data_list k N quality fix_bit_val
               weighted_learning w).1 in
  grows (run_call_ok k fix_bit_val weighted_learning data_list) w w'
  ∧ (k_pos_or_none k = false →
     w_lstm w' = lstm_initialize
                   (if quality then Nf_quality else Nf_existence) M).
Proof.
  rewrite train_unfold.
  match goal with |- context [py_bind ?m ?f ?w0] =>
    set (w2 := w0); set (run := py_bind m f) end.
  assert (holds (tracks (run_call_ok k fix_bit_val weighted_learning data_list)
                   (k_pos_or_none k = false)) (λ _, True) run) as H.
  { hbind (λ st : list item * option (list Q) * Q,
             st.1.1 ≡ₚ data_list ∧ (weighted_learning = false → st.2 = 1)).
    - apply (holds_for_each _ (λ st : list item * option (list Q) * Q,
        st.1.1 ≡ₚ data_list ∧ (weighted_learning = false → st.2 = 1)));
        [|done].
      intros _ st _ [? ?]. by apply train_iteration_tracks.
    - intros st _. destruct (st.1.2); [|by apply holds_raise; tc_solve].
      intros w0. by split. }
  destruct (H w2) as [[Hg Hk] _]. simpl. split.
  - destruct Hg as (l & E & Hl). by exists l.
  - intros Ek. by rewrite Hk.
Qed.

Lemma grows_new_calls P w w' : grows P w w' → Forall P (new_calls w w').
Proof.
  intros (l & E & Hl). unfold new_calls. by rewrite E, drop_app_length.
Qed.

Lemma new_calls_app w w' l : w_log w' = w_log w ++ l → new_calls w w' = l.
Proof. intros E. unfold new_calls. by rewrite E, drop_app_length. Qed.

Lemma learning_factor_eq a b :
  _learning_factor (np_average [a; b]) == ((a + b) / 2) ^ 2.
Proof.
  unfold _learning_factor, np_square, np_average, Qsum. simpl. field.
Qed.

(** A step that returns normally while the encoder's bits are asked for
    ends with the encoder's backward call, at the scale the loop carries
    on. *)
Lemma train_item_Ok_backward k quality fix_bit_val weighted_learning
    author x_mat fy yt errors lf w st' :
  k_pos_or_none k = true → py_not yt = false →
  (train_item k quality fix_bit_val weighted_learning
     (author, (x_mat, fy, yt)) (errors, lf) w).2 = Ok st' →
  ∃ pre g,
    w_log (train_item k quality fix_bit_val weighted_learning
             (author, (x_mat, fy, yt)) (errors, lf) w).1
    = w_log w ++ pre ++ [LstmBackward g st'.2].
Proof.
  intros Hk Hyt. unfold train_item. rewrite Hyt, Hk.
  unfold py_bind, call_lstm_forward, call_nnet_forward, call_nnet_backward,
    call_lstm_backward, log_call, lift, py_ret, py_bind. simpl.
  repeat (case_match; simpl in *; simplify_eq; try done).
  all: intros [= <-]; simpl; rewrite <-!(assoc_L (++)); simpl.
  all: first [by eexists [_; _; _], _ | by eexists [_; _], _].
Qed.

(** C8. An item whose target is falsy ([None] or zero) is skipped by the
    training loop and by the evaluation pass alike: the step leaves the
    world as it is (no call on either network is made or logged, no state
    changes), returns the lists it carries unchanged (nothing is
    appended), and raises nothing. *)
Theorem falsy_target_skipped k quality fix_bit_val weighted_learning
    author x_mat fy yt st acc w :
  py_not yt = true →
  train_item k quality fix_bit_val weighted_learning
    (author, (x_mat, fy, yt)) st w = (w, Ok st)
  ∧ test_item k quality fix_bit_val (author, (x_mat, fy, yt)) acc w
    = (w, Ok acc).
Proof.
  intros Hyt. unfold train_item, test_item.
  destruct st as [errors lf], acc as [[[errors' y_pred] y_true] lw].
  by rewrite Hyt.
Qed.

(** C7. In a training step with [weighted_learning] on, every backward
    call on the encoder is passed the square of the average of the item's
    fields [fy[3]] and [fy[4]] as its scale, and a step that returns
    normally with the encoder taking part does make that call; in a whole
    run with [weighted_learning] off, every backward call on the encoder
    is passed the scale 1.0. *)
Theorem learning_rate_scale k quality fix_bit_val :
  (∀ author x_mat fy yt errors lf w g lf',
     LstmBackward g lf'
     ∈ new_calls w (train_item k quality fix_bit_val true
                      (author, (x_mat, fy, yt)) (errors, lf) w).1 →
     ∃ a b, fy !! 3%nat = Some a ∧ fy !! 4%nat = Some b
            ∧ lf' == ((a + b) / 2) ^ 2)
  ∧ (∀ author x_mat fy yt errors lf w st',
       k_pos_or_none k = true → py_not yt = false →
       (train_item k quality fix_bit_val true
          (author, (x_mat, fy, yt)) (errors, lf) w).2 = Ok st' →
       ∃ g lf', LstmBackward g lf'
                ∈ new_calls w (train_item k quality fix_bit_val true
                                 (author, (x_mat, fy, yt)) (errors, lf) w).1)
  ∧ (∀ data_list N w g lf',
       LstmBackward g lf'
       ∈ new_calls w (_train_nn_with_k_lstm_bits data_list k N quality
                        fix_bit_val false w).1 →
       lf' = 1).
Proof.
  split_and!.
  - intros author x_mat fy yt errors lf w g lf' Hin.
    destruct (train_item_tracks k quality fix_bit_val true
                author x_mat fy yt errors lf w) as [[Hg _] _].
    apply grows_new_calls in Hg. rewrite Forall_forall in Hg.
    destruct (Hg _ Hin) as (_ & a & b & Ha & Hb & ->).
    exists a, b. split_and!; [done..|]. apply learning_factor_eq.
  - intros author x_mat fy yt errors lf w st' Hk Hyt Hr.
    destruct (train_item_Ok_backward _ _ _ _ _ _ _ _ _ _ _ _ Hk Hyt Hr)
      as (pre & g & E).
    exists g, st'.2. rewrite (new_calls_app _ _ _ E).
    rewrite elem_of_app, list_elem_of_singleton. by right.
  - intros data_list N w g lf' Hin.
    destruct (train_run_tracks data_list k N quality fix_bit_val false w)
      as [Hg _].
    apply grows_new_calls in Hg. rewrite Forall_forall in Hg.
    by destruct (Hg _ Hin) as [_ ->].
Qed.

Lemma slice_to_nil k : slice_to k [] = [].
Proof.
  destruct k as [z|]; [|done]. simpl. case_match; [apply take_nil|done].
Qed.

Lemma back_el_nil k bp_res :
  assign_slice_to k (np_zeros 0) (np_resize bp_res 0) = [].
Proof.
  unfold assign_slice_to.
  assert (np_resize bp_res 0 = []) as -> by by destruct bp_res.
  by rewrite slice_to_nil.
Qed.

Lemma py_bind_quiet {A B} (m : Py A) (f : A → Py B) w :
  (∀ a w, (f a w).1 = w) → (py_bind m f w).1 = (m w).1.
Proof.
  intros Hf. unfold py_bind.
  destruct (m w) as [w1 [a|e]]; simpl; [apply Hf|done].
Qed.

(** One pass over a one-item list: the world at the end is the one the
    step on that item leaves, started from the two fresh networks. *)
Lemma train_single_item_world it k quality fix_bit_val weighted_learning w :
  (_train_nn_with_k_lstm_bits [it] k 1 quality fix_bit_val
     weighted_learning w).1
  = (train_item k quality fix_bit_val weighted_learning it ([], 1)
       (World
          (lstm_initialize (if quality then Nf_quality else Nf_existence) M)
          (dnn_initialize
             (match k with
              | Some k => [k + 12; k + 12 + M `div` 2; 1]
              | None => [12 + 12; 12 + 12 + M `div` 2; 1]
              end)%Z)
          (random_shuffle (w_rng w) [it]).1 (w_log w))).1.
Proof.
  rewrite train_unfold.
  rewrite py_bind_quiet by (intros st w0; by destruct (st.1.2)).
  change (seqZ 0 1) with [0%Z]. simpl for_each.
  rewrite py_bind_quiet by done.
  unfold train_iteration. unfold py_bind at 1. unfold py_random_shuffle at 1.
  simpl w_rng.
  pose proof (random_shuffle_perm (w_rng w) [it]) as Hp.
  destruct (random_shuffle (w_rng w) [it]) as [g' l']. simpl in Hp.
  apply Permutation_singleton_r in Hp as ->. simpl w_lstm.
  rewrite py_bind_quiet by done. simpl for_each.
  by rewrite py_bind_quiet by done.
Qed.

Lemma train_item_fix_list k quality l author x_mat fy yt errors lf w :
  k_pos_or_none k = true → py_not (Some yt) = false →
  (∀ s v, ∃ s' y, dnn_forward s v = Ok (s', y)) →
  (∀ s dy, ∃ s' bp, dnn_backward_adadelta s dy = Ok (s', bp)) →
  let w' := (train_item k quality (Some (PyList l)) false
               (author, (x_mat, fy, Some yt)) (errors, lf) w).1 in
  (∃ dy, w_log w'
         = w_log w ++ [NnetForward (l ++ fy); NnetBackward dy;
                       LstmBackward [] lf])
  ∧ (∀ s, lstm_backward_adadelta (w_lstm w) [] lf = Ok s → w_lstm w' = s).
Proof.
  intros Hk Hyt Hfwd Hbwd. simpl in Hyt.
  unfold train_item. simpl. rewrite Hyt, Hk. simpl.
  unfold py_bind, call_nnet_forward, call_nnet_backward,
    call_lstm_backward, log_call, lift, py_ret, py_bind. simpl.
  destruct (Hfwd (w_nnet w) (l ++ fy)) as (s1 & y & ->). simpl.
  match goal with |- context [dnn_backward_adadelta ?s ?dy] =>
    destruct (Hbwd s dy) as (s2 & bp & ->) end. simpl.
  rewrite back_el_nil. split.
  - eexists. destruct (lstm_backward_adadelta (w_lstm w) [] lf); simpl;
      by rewrite <-!(assoc_L (++)).
  - intros s ->. done.
Qed.

(** C1 (the code departs from it). With a fixed bit value given as a list
    and [k] positive or [None], one pass over a single item with a usable
    target, the predictor answering its two calls, logs the predictor's
    forward and backward calls and then a backward call on the encoder
    with an empty gradient: the encoder's state after the run is what
    that call makes of the initial one. *)
Theorem fix_bit_val_backward_invoked k quality l author x_mat fy yt w :
  k_pos_or_none k = true → py_not (Some yt) = false →
  (∀ s v, ∃ s' y, dnn_forward s v = Ok (s', y)) →
  (∀ s dy, ∃ s' bp, dnn_backward_adadelta s dy = Ok (s', bp)) →
  let w' := (_train_nn_with_k_lstm_bits [(author, (x_mat, fy, Some yt))]
               k 1 quality (Some (PyList l)) false w).1 in
  (∃ dy, new_calls w w'
         = [NnetForward (l ++ fy); NnetBackward dy; LstmBackward [] 1])
  ∧ (∀ s, lstm_backward_adadelta
            (lstm_initialize (if quality then Nf_quality else Nf_existence) M)
            [] 1 = Ok s →
          w_lstm w' = s).
Proof.
  intros Hk Hyt Hfwd Hbwd. simpl. rewrite train_single_item_world.
  match goal with |- context [train_item _ _ _ _ _ _ ?w0] =>
    destruct (train_item_fix_list k quality l author x_mat fy yt [] 1 w0
                Hk Hyt Hfwd Hbwd) as [[dy E] Hs] end.
  split; [|exact Hs].
  exists dy. by apply new_calls_app.
Qed.

Lemma normalize_fixpoint yt : normalize yt == yt → yt == 1.
Proof.
  rewrite normalize_eq. intros H.
  assert (yt + 1 == 2 * ((yt + 1) / 2)) as E by field.
  rewrite H in E. lra.
Qed.

(** C2 (the code departs from it). With [k > 0], [quality] off and no
    fixed bit value, on an item with a usable target and from the same
    world, with the encoder and the predictor answering their forward
    calls: the evaluation step records the normalized target
    [(yt + 1) / 2] and the error against it, while the training step
    keeps the target [yt] (its gradient is [2 (y - yt)], its error
    [(y - yt)²]); the two targets differ unless [yt] is 1. *)
Theorem test_normalizes_where_train_does_not k weighted_learning
    author x_mat fy yt errors lf errors' y_pred y_true label_weights
    w s Y s' y a b :
  k_gt_0 k = true → py_not (Some yt) = false →
  lstm_forward (w_lstm w) x_mat = Ok (s, Y) →
  dnn_forward (w_nnet w) (slice_to k Y ++ fy) = Ok (s', y) →
  fy !! 3%nat = Some a → fy !! 4%nat = Some b →
  let tr := train_item k false None weighted_learning
              (author, (x_mat, fy, Some yt)) (errors, lf) w in
  let te := test_item k false None (author, (x_mat, fy, Some yt))
              (errors', y_pred, y_true, label_weights) w in
  te.2 = Ok (errors' ++ [(y - normalize yt) ^ 2], y_pred ++ [y],
             y_true ++ [normalize yt], label_weights ++ [np_average [a; b]])
  ∧ NnetBackward (2 * (y - yt)) ∈ new_calls w tr.1
  ∧ (∀ st, tr.2 = Ok st → st.1 = errors ++ [(y - yt) ^ 2])
  ∧ normalize yt == (yt + 1) / 2
  ∧ (¬ yt == 1 → ¬ normalize yt == yt).
Proof.
  intros Hk Hyt Hl Hd Ha Hb. simpl in Hyt.
  assert (k_pos_or_none k = true) as Hk'.
  { unfold k_pos_or_none. by rewrite Hk. }
  split_and!.
  - unfold test_item. simpl. rewrite Hyt, Hk', Hk. simpl.
    unfold py_bind, call_lstm_forward, call_nnet_forward, log_call, lift,
      py_ret, py_bind, getitem. simpl.
    rewrite Hl. simpl. rewrite Hd, Ha, Hb. done.
  - unfold train_item. simpl. rewrite Hyt, Hk'. simpl.
    unfold py_bind, call_lstm_forward, call_nnet_forward,
      call_nnet_backward, call_lstm_backward, log_call, lift, py_ret,
      py_bind, getitem. simpl.
    rewrite Hl. simpl. rewrite Hd. simpl.
    repeat (case_match; simpl in *; simplify_eq).
    all: unfold new_calls; simpl; rewrite <-!(assoc_L (++));
      rewrite drop_app_length; simpl; rewrite !elem_of_cons; auto.
  - unfold train_item. simpl. rewrite Hyt, Hk'. simpl.
    unfold py_bind, call_lstm_forward, call_nnet_forward,
      call_nnet_backward, call_lstm_backward, log_call, lift, py_ret,
      py_bind, getitem. simpl.
    rewrite Hl. simpl. rewrite Hd. simpl.
    repeat (case_match; simpl in *; simplify_eq); try done.
    all: by intros st [= <-].
  - apply normalize_eq.
  - intros Hne Heq. by apply Hne, normalize_fixpoint.
Qed.

(** C9. The measurements [_error_measurement] returns do not depend on
    [label_weights]: two calls on the same predictions and true labels
    return the same precision, recall and F-score, whatever the two weight
    lists. *)
Theorem error_measurement_ignores_weights y_pred y_true
    (label_weights1 label_weights2 : list Q) :
  _error_measurement y_pred y_true label_weights1
  = _error_measurement y_pred y_true label_weights2.
Proof. reflexivity. Qed.

(** ** Further properties of the training and evaluation loops *)

Lemma train_returns_networks data_list k N quality fix_bit_val
    weighted_learning w w' lstm nnet errors :
  _train_nn_with_k_lstm_bits data_list k N quality fix_bit_val
    weighted_learning w = (w', Ok (lstm, nnet, errors)) →
  lstm = w_lstm w' ∧ nnet = w_nnet w'.
Proof.
  rewrite train_unfold. unfold py_bind.
  match goal with |- context [for_each ?l ?b ?s ?w0] =>
    destruct (for_each l b s w0) as [w1 [st|e]] end; [|done].
  destruct (st.1.2); [|done]. by intros [= <- <- <- _].
Qed.

(** X1. With [k] an int that is not positive, a training run makes no call on
    the encoder, whatever [fix_bit_val] is, and leaves it as
    [lstm.initialize] made it. *)
Theorem encoder_idle_when_k_not_positive data_list k N quality fix_bit_val
    weighted_learning w :
  k_pos_or_none k = false →
  let w' := (_train_nn_with_k_lstm_bits data_list k N quality fix_bit_val
               weighted_learning w).1 in
  w_lstm w'
  = lstm_initialize (if quality then Nf_quality else Nf_existence) M
  ∧ Forall (λ c, is_lstm_call c = false) (new_calls w w').
Proof.
  intros Hk.
  destruct (train_run_tracks data_list k N quality fix_bit_val
              weighted_learning w) as [Hg Hs].
  split; [by apply Hs|].
  apply grows_new_calls in Hg. eapply Forall_impl; [exact Hg|].
  intros [x|g lf| |]; simpl; try done; intros [Hk' _]; congruence.
Qed.

Lemma test_item_tracks k quality fix_bit_val it acc :
  holds (tracks (test_call_ok k fix_bit_val)
           (k_pos_or_none k && is_None fix_bit_val = false))
    (λ _, True) (test_item k quality fix_bit_val it acc).
Proof.
  destruct it as [author [[x_mat fy] yt]], acc as [[[errors y_pred] y_true] lw].
  unfold test_item. destruct (py_not yt); [by hret|].
  hbind (λ _ : vec, True).
  { destruct (k_pos_or_none k) eqn:Ek, fix_bit_val as [v|]; simpl;
      try by hret.
    by apply holds_call_lstm_forward. }
  intros Y _. hbind (λ _ : vec, True); [by hlift|].
  intros nnet_input _. hbind (λ _ : Q, True);
    [by apply holds_call_nnet_forward|].
  intros y _. hbind (λ _ : Q, True); [by hlift|].
  intros ytv _. hbind (λ _ : Q, True); [by hlift|].
  intros a _. hbind (λ _ : Q, True); [by hlift|].
  intros b _. by hret.
Qed.

Lemma test_run_tracks test_data k quality fix_bit_val w :
  tracks (test_call_ok k fix_bit_val)
    (k_pos_or_none k && is_None fix_bit_val = false)
    w (_test_nn_with_k_lstm_bits test_data k quality fix_bit_val w).1.
Proof.
  unfold _test_nn_with_k_lstm_bits.
  refine (proj1 (holds_for_each _ (λ _, True) _ _ _ _ I w)).
  intros it acc _ _. apply test_item_tracks.
Qed.

(** X2. An evaluation pass calls no backward operation; it calls the encoder's
    forward only when [k] is positive or [None] and no fixed bit value is
    given, and otherwise leaves the encoder's state as it was. *)
Theorem evaluation_calls_forward_only test_data k quality fix_bit_val w :
  let w' := (_test_nn_with_k_lstm_bits test_data k quality fix_bit_val w).1 in
  Forall (λ c, match c with
               | LstmForward _ => k_pos_or_none k = true ∧ fix_bit_val = None
               | NnetForward _ => True
               | LstmBackward _ _ | NnetBackward _ => False
               end) (new_calls w w')
  ∧ (k_pos_or_none k = false ∨ fix_bit_val ≠ None → w_lstm w' = w_lstm w).
Proof.
  destruct (test_run_tracks test_data k quality fix_bit_val w) as [Hg Hs].
  split.
  - apply grows_new_calls in Hg. eapply Forall_impl; [exact Hg|].
    by intros [].
  - intros H. apply Hs. destruct H as [->|H]; [done|].
    destruct fix_bit_val; [|done]. by rewrite andb_false_r.
Qed.

(** X3. With a fixed bit value given, neither a training run nor an evaluation
    pass calls the encoder's forward operation, whatever [k] is. *)
Theorem fixed_bit_never_runs_encoder_forward data_list test_data k N quality
    v weighted_learning w :
  Forall (λ c, ∀ x, c ≠ LstmForward x)
    (new_calls w (_train_nn_with_k_lstm_bits data_list k N quality (Some v)
                    weighted_learning w).1)
  ∧ Forall (λ c, ∀ x, c ≠ LstmForward x)
      (new_calls w (_test_nn_with_k_lstm_bits test_data k quality (Some v)
                      w).1).
Proof.
  split.
  - destruct (train_run_tracks data_list k N quality (Some v)
                weighted_learning w) as [Hg _].
    apply grows_new_calls in Hg. eapply Forall_impl; [exact Hg|].
    intros [x|g lf| |]; simpl; try done. by intros (_ & ? & _).
  - destruct (test_run_tracks test_data k quality (Some v) w) as [Hg _].
    apply grows_new_calls in Hg. eapply Forall_impl; [exact Hg|].
    intros [x|g lf| |]; simpl; try done. by intros (_ & ?).
Qed.

(** X4. [train_nn_only] makes no call on the encoder, and the encoder of the
    pair it returns is the freshly initialised one. *)
Theorem train_nn_only_never_calls_encoder train_dict N weighted_learning w :
  let r := train_nn_only train_dict N weighted_learning w in
  Forall (λ c, is_lstm_call c = false) (new_calls w r.1)
  ∧ ∀ lstm nnet, r.2 = Ok (lstm, nnet) →
      lstm = lstm_initialize Nf_quality M.
Proof.
  unfold train_nn_only, train_nn_only_items, py_bind, lift. simpl.
  destruct (_expand_to_all (map_to_list train_dict)) as [expanded|e]; simpl.
  2: { unfold new_calls. rewrite drop_all. by split. }
  destruct (rebalance_spec expanded w)
    as (w1 & items & _ & _ & E & _ & _ & _ & _ & _ & _ & _ & _ & El).
  rewrite E.
  destruct (train_run_tracks items (Some 0%Z) N true None weighted_learning
              w1) as [Hg Hs].
  specialize (Hs eq_refl). apply grows_new_calls in Hg.
  assert (Forall (λ c, is_lstm_call c = false)
            (new_calls w1 (_train_nn_with_k_lstm_bits items (Some 0%Z) N true
                             None weighted_learning w1).1)) as Hc.
  { eapply Forall_impl; [exact Hg|].
    intros [x|g lf| |]; simpl; try done; intros [Hk' _]; by compute in Hk'. }
  clear Hg.
  destruct (_train_nn_with_k_lstm_bits items (Some 0%Z) N true None
              weighted_learning w1) as [w' [[[lstm nnet] errors]|e]] eqn:Et;
    simpl in *.
  - split; [by unfold new_calls in *; rewrite <-El|].
    intros ? ? [= <- <-].
    apply train_returns_networks in Et as [-> _]. exact Hs.
  - split; [by unfold new_calls in *; rewrite <-El|done].
Qed.

Lemma for_each_cons {A S} (x : A) l (body : A → S → Py S) s w :
  for_each (x :: l) body s w
  = match body x s w with
    | (w', Ok s') => for_each l body s' w'
    | (w', Raise e) => (w', Raise e)
    end.
Proof. done. Qed.

Lemma test_item_falsy k quality fix_bit_val it acc w :
  usable it = false → test_item k quality fix_bit_val it acc w = (w, Ok acc).
Proof.
  destruct it as [author [[x_mat fy] yt]], acc as [[[errors y_pred] y_true] lw].
  unfold usable, item_label. simpl. rewrite negb_false_iff. intros Hy.
  unfold test_item. by rewrite Hy.
Qed.

Lemma train_item_falsy k quality fix_bit_val weighted_learning it st w :
  usable it = false →
  train_item k quality fix_bit_val weighted_learning it st w = (w, Ok st).
Proof.
  destruct it as [author [[x_mat fy] yt]], st as [errors lf].
  unfold usable, item_label. simpl. rewrite negb_false_iff. intros Hy.
  unfold train_item. by rewrite Hy.
Qed.

(** X5. An evaluation pass over entries none of which has a usable target (an
    empty dict among them) returns four empty lists, raises nothing and
    leaves the world as it is. *)
Theorem evaluation_without_targets (test_data : gmap string entry) k quality
    fix_bit_val w :
  (∀ author e, test_data !! author = Some e → py_not e.2 = true) →
  _test_nn_with_k_lstm_bits test_data k quality fix_bit_val w
  = (w, Ok ([], [], [], [])).
Proof.
  intros Hall. unfold _test_nn_with_k_lstm_bits.
  assert (Forall (λ it, usable it = false) (map_to_list test_data)) as Hf.
  { apply Forall_forall. intros [author e] Hin%elem_of_map_to_list.
    unfold usable, item_label. simpl. by rewrite (Hall _ _ Hin). }
  induction Hf as [|it items Hit _ IH]; [done|].
  by rewrite for_each_cons, test_item_falsy.
Qed.

(** X6. With [N ≤ 0] the loop body never runs, [errors] is never bound, and
    the [return] raises [UnboundLocalError], after the two networks were
    initialised; no call was made and the generator was not used. *)
Theorem training_without_iterations data_list k N quality fix_bit_val
    weighted_learning w :
  (N ≤ 0)%Z →
  ∃ w', _train_nn_with_k_lstm_bits data_list k N quality fix_bit_val
          weighted_learning w = (w', Raise UnboundLocalError)
    ∧ w_lstm w'
      = lstm_initialize (if quality then Nf_quality else Nf_existence) M
    ∧ w_nnet w'
      = dnn_initialize
          (match k with
           | Some k => [k + 12; k + 12 + M `div` 2; 1]
           | None => [12 + 12; 12 + 12 + M `div` 2; 1]
           end)%Z
    ∧ w_log w' = w_log w ∧ w_rng w' = w_rng w.
Proof.
  intros HN. rewrite train_unfold, seqZ_nil by done.
  by eexists.
Qed.

(** A step on a usable item that returns normally appends one entry to
    each list it carries. *)
Lemma test_item_lengths k quality fix_bit_val it
    errors y_pred y_true lw w errors' y_pred' y_true' lw' :
  usable it = true →
  (test_item k quality fix_bit_val it (errors, y_pred, y_true, lw) w).2
  = Ok (errors', y_pred', y_true', lw') →
  length errors' = S (length errors) ∧ length y_pred' = S (length y_pred)
  ∧ length y_true' = S (length y_true) ∧ length lw' = S (length lw).
Proof.
  destruct it as [author [[x_mat fy] yt]].
  unfold usable, item_label. simpl. rewrite negb_true_iff. intros Hy.
  unfold test_item. rewrite Hy.
  unfold py_bind, call_lstm_forward, call_nnet_forward, log_call, lift,
    py_ret, py_bind. simpl.
  repeat (case_match; simpl in *; simplify_eq; try done).
  all: intros [= <- <- <- <-]; rewrite !length_app; simpl; lia.
Qed.

Lemma train_item_length k quality fix_bit_val weighted_learning it
    errors lf w st' :
  usable it = true →
  (train_item k quality fix_bit_val weighted_learning it (errors, lf) w).2
  = Ok st' →
  length st'.1 = S (length errors).
Proof.
  destruct it as [author [[x_mat fy] yt]].
  unfold usable, item_label. simpl. rewrite negb_true_iff. intros Hy.
  unfold train_item. rewrite Hy.
  unfold py_bind, call_lstm_forward, call_nnet_forward, call_nnet_backward,
    call_lstm_backward, log_call, lift, py_ret, py_bind. simpl.
  repeat (case_match; simpl in *; simplify_eq; try done).
  all: intros [= <-]; simpl; rewrite !length_app; simpl; lia.
Qed.

Lemma test_loop_lengths k quality fix_bit_val items :
  ∀ errors y_pred y_true lw w errors' y_pred' y_true' lw',
    (for_each items (test_item k quality fix_bit_val)
       (errors, y_pred, y_true, lw) w).2
    = Ok (errors', y_pred', y_true', lw') →
    let n := length (filter usable items) in
    length errors' = (length errors + n)%nat
    ∧ length y_pred' = (length y_pred + n)%nat
    ∧ length y_true' = (length y_true + n)%nat
    ∧ length lw' = (length lw + n)%nat.
Proof.
  induction items as [|it items IH]; intros * Hr.
  - injection Hr as <- <- <- <-. simpl. lia.
  - rewrite for_each_cons in Hr.
    destruct (usable it) eqn:Hu.
    + rewrite filter_cons_True by by apply Is_true_true_2.
      destruct (test_item k quality fix_bit_val it
                  (errors, y_pred, y_true, lw) w)
        as [w1 [[[[e1 p1] t1] l1]|e]] eqn:E; [|done].
      apply IH in Hr.
      pose proof (test_item_lengths k quality fix_bit_val it errors y_pred
                    y_true lw w e1 p1 t1 l1 Hu) as Hl.
      rewrite E in Hl. specialize (Hl eq_refl). simpl in *. lia.
    + rewrite filter_cons_False by by apply Is_true_false_2.
      rewrite test_item_falsy in Hr by done. by apply IH in Hr.
Qed.

Lemma test_item_step k quality fix_bit_val it
    errors y_pred y_true lw w errors' y_pred' y_true' lw' :
  usable it = true →
  (test_item k quality fix_bit_val it (errors, y_pred, y_true, lw) w).2
  = Ok (errors', y_pred', y_true', lw') →
  ∃ y t, errors' = errors ++ [(y - t) ^ 2] ∧ y_pred' = y_pred ++ [y]
    ∧ y_true' = y_true ++ [t].
Proof.
  destruct it as [author [[x_mat fy] yt]].
  unfold usable, item_label. simpl. rewrite negb_true_iff. intros Hy.
  unfold test_item. rewrite Hy.
  unfold py_bind, call_lstm_forward, call_nnet_forward, log_call, lift,
    py_ret, py_bind. simpl.
  repeat (case_match; simpl in *; simplify_eq; try done).
  all: intros [= <- <- <- <-]; by eexists _, _.
Qed.

Lemma test_loop_errors k quality fix_bit_val items :
  ∀ errors y_pred y_true lw w errors' y_pred' y_true' lw',
    length errors = length y_pred → length y_pred = length y_true →
    (∀ i y t, y_pred !! i = Some y → y_true !! i = Some t →
              errors !! i = Some ((y - t) ^ 2)) →
    (for_each items (test_item k quality fix_bit_val)
       (errors, y_pred, y_true, lw) w).2
    = Ok (errors', y_pred', y_true', lw') →
    ∀ i y t, y_pred' !! i = Some y → y_true' !! i = Some t →
             errors' !! i = Some ((y - t) ^ 2).
Proof.
  induction items as [|it items IH]; intros * Le Lp Hinv Hr.
  - by injection Hr as <- <- <- <-.
  - rewrite for_each_cons in Hr.
    destruct (usable it) eqn:Hu.
    + destruct (test_item k quality fix_bit_val it
                  (errors, y_pred, y_true, lw) w)
        as [w1 [[[[e1 p1] t1] l1]|e]] eqn:E; [|done].
      pose proof (test_item_step k quality fix_bit_val it errors y_pred
                    y_true lw w e1 p1 t1 l1 Hu) as Hs.
      rewrite E in Hs. destruct (Hs eq_refl) as (y0 & t0 & -> & -> & ->).
      revert Hr. apply IH; [by rewrite !length_app, Le|
                            by rewrite !length_app, Lp|].
      intros j y t Hy Ht. destruct (decide (j < length y_pred)%nat) as [Hj|Hj].
      * rewrite lookup_app_l in Hy, Ht |- * by lia. eauto.
      * rewrite lookup_app_r in Hy, Ht |- * by lia.
        replace (j - length errors)%nat with (j - length y_pred)%nat by lia.
        replace (j - length y_true)%nat with (j - length y_pred)%nat in Ht
          by lia.
        destruct (j - length y_pred)%nat as [|j']; simpl in *;
          by simplify_eq.
    + rewrite test_item_falsy in Hr by done. revert Hr. by apply IH.
Qed.

Lemma evaluation_lengths (test_data : gmap string entry) k quality
    fix_bit_val w errors y_pred y_true label_weights :
  (_test_nn_with_k_lstm_bits test_data k quality fix_bit_val w).2
  = Ok (errors, y_pred, y_true, label_weights) →
  let n := length (filter usable (map_to_list test_data)) in
  length errors = n ∧ length y_pred = n ∧ length y_true = n
  ∧ length label_weights = n.
Proof. intros Hr. by apply test_loop_lengths in Hr. Qed.

(** X7. The four lists an evaluation pass returns are parallel: each holds one
    entry per entry of the dict with a usable target, and the error
    recorded at a position is the squared difference of the prediction and
    the target recorded there. *)
Theorem evaluation_lists_parallel (test_data : gmap string entry) k quality
    fix_bit_val w errors y_pred y_true label_weights :
  (_test_nn_with_k_lstm_bits test_data k quality fix_bit_val w).2
  = Ok (errors, y_pred, y_true, label_weights) →
  let n := length (filter usable (map_to_list test_data)) in
  length errors = n ∧ length y_pred = n ∧ length y_true = n
  ∧ length label_weights = n
  ∧ ∀ i y t, y_pred !! i = Some y → y_true !! i = Some t →
      errors !! i = Some ((y - t) ^ 2).
Proof.
  intros Hr n.
  destruct (evaluation_lengths _ _ _ _ _ _ _ _ _ Hr) as (? & ? & ? & ?).
  split_and!; [done..|].
  revert Hr. unfold _test_nn_with_k_lstm_bits.
  apply test_loop_errors; [done..|]. by intros [|i].
Qed.

Lemma train_loop_length k quality fix_bit_val weighted_learning items :
  ∀ errors lf w st',
    (for_each items (train_item k quality fix_bit_val weighted_learning)
       (errors, lf) w).2 = Ok st' →
    length st'.1 = (length errors + length (filter usable items))%nat.
Proof.
  induction items as [|it items IH]; intros * Hr.
  - injection Hr as <-. simpl. lia.
  - rewrite for_each_cons in Hr.
    destruct (usable it) eqn:Hu.
    + rewrite filter_cons_True by by apply Is_true_true_2.
      destruct (train_item k quality fix_bit_val weighted_learning it
                  (errors, lf) w) as [w1 [[e1 lf1]|e]] eqn:E; [|done].
      apply IH in Hr.
      pose proof (train_item_length k quality fix_bit_val weighted_learning
                    it errors lf w (e1, lf1) Hu) as Hl.
      rewrite E in Hl. specialize (Hl eq_refl). simpl in *. lia.
    + rewrite filter_cons_False by by apply Is_true_false_2.
      rewrite train_item_falsy in Hr by done. by apply IH in Hr.
Qed.

Lemma train_iteration_errors k quality fix_bit_val weighted_learning
    data_list st w st' :
  st.1.1 ≡ₚ data_list →
  (train_iteration k quality fix_bit_val weighted_learning st w).2 = Ok st' →
  st'.1.1 ≡ₚ data_list
  ∧ ∃ errors, st'.1.2 = Some errors
      ∧ length errors = length (filter usable data_list).
Proof.
  destruct st as [[l errors0] lf]. simpl. intros Hl.
  unfold train_iteration, py_bind at 1, py_random_shuffle.
  pose proof (random_shuffle_perm (w_rng w) l) as Hp.
  destruct (random_shuffle (w_rng w) l) as [g l']. simpl in Hp.
  unfold py_bind.
  match goal with |- context [for_each ?a ?b ?c ?d] =>
    pose proof (train_loop_length k quality fix_bit_val weighted_learning
                  a [] lf d) as Hlen;
    destruct (for_each a b c d) as [w1 [r|e]] end; [|done].
  simpl. intros [= <-]. simpl.
  assert (l' ≡ₚ data_list) as Hl' by by rewrite Hp.
  split; [done|]. exists r.1. split; [done|].
  rewrite (Hlen r eq_refl). simpl. by rewrite Hl'.
Qed.

Lemma train_iterations_errors k quality fix_bit_val weighted_learning
    data_list (its : list Z) :
  ∀ st w st',
    st.1.1 ≡ₚ data_list →
    (for_each its
       (λ _, train_iteration k quality fix_bit_val weighted_learning)
       st w).2 = Ok st' →
    (its = [] ∧ st' = st)
    ∨ ∃ errors, st'.1.2 = Some errors
        ∧ length errors = length (filter usable data_list).
Proof.
  induction its as [|i its IH]; intros st w st' Hl Hr.
  - left. by injection Hr as <-.
  - right. rewrite for_each_cons in Hr.
    destruct (train_iteration k quality fix_bit_val weighted_learning st w)
      as [w1 [st1|e]] eqn:E; [|done].
    pose proof (train_iteration_errors k quality fix_bit_val
                  weighted_learning data_list st w st1 Hl) as H1.
    rewrite E in H1. destruct (H1 eq_refl) as (Hl1 & errors & E1 & Hlen).
    destruct (IH st1 w1 st' Hl1 Hr) as [[_ ->]|H2]; [|done].
    by exists errors.
Qed.

(** X8. A training run that returns has run at least one pass; the errors it
    returns are those of the last pass, one per item with a usable target;
    the networks it returns are the two it trained. *)
Theorem training_errors_length data_list k N quality fix_bit_val
    weighted_learning w w' lstm nnet errors :
  _train_nn_with_k_lstm_bits data_list k N quality fix_bit_val
    weighted_learning w = (w', Ok (lstm, nnet, errors)) →
  (0 < N)%Z
  ∧ length errors = length (filter usable data_list)
  ∧ lstm = w_lstm w' ∧ nnet = w_nnet w'.
Proof.
  intros Hr. pose proof (train_returns_networks _ _ _ _ _ _ _ _ _ _ _ Hr).
  split; [|split; [|done]].
  - destruct (decide (0 < N)%Z) as [|HN]; [done|].
    by rewrite train_unfold, seqZ_nil in Hr by lia.
  - revert Hr. rewrite train_unfold. unfold py_bind.
    match goal with |- context [for_each ?a ?b ?c ?d] =>
      pose proof (train_iterations_errors k quality fix_bit_val
                    weighted_learning data_list a c d) as H1;
      destruct (for_each a b c d) as [w1 [st|e]] end; [|done].
    destruct (H1 st (reflexivity _) eq_refl)
      as [[_ ->]|(errors1 & E1 & Hlen)]; [done|].
    rewrite E1. by intros [= _ _ _ <-].
Qed.

(** X9. Training reads [fix_bit_val] as a list ([np.array(fix_bit_val)]),
    evaluation as a number ([np.array([fix_bit_val])]): on an item with a
    usable target, a training step given a number and an evaluation step
    given a list raise [ValueError] in [np.concatenate], before any call
    on a network. *)
Theorem fixed_bit_shape_mismatch k quality weighted_learning it st acc w :
  usable it = true →
  (∀ q, train_item k quality (Some (PyNum q)) weighted_learning it st w
        = (w, Raise ValueError))
  ∧ (∀ l, test_item k quality (Some (PyList l)) it acc w
          = (w, Raise ValueError)).
Proof.
  destruct it as [author [[x_mat fy] yt]], st as [errors lf],
    acc as [[[errors' y_pred] y_true] lw].
  unfold usable, item_label. simpl. rewrite negb_true_iff. intros Hy.
  split; intros ?; unfold train_item, test_item; rewrite Hy;
    by rewrite andb_false_r.
Qed.

(** X10. The evaluation step reads [fy[3]] and [fy[4]] for every item with a
    usable target, and the training step does when [weighted_learning] is
    on and the encoder takes part: with fewer than five fields the step
    does not return. *)
Theorem short_feature_vector_raises k quality fix_bit_val it w :
  usable it = true → (length it.2.1.2 < 5)%nat →
  (∀ acc acc', (test_item k quality fix_bit_val it acc w).2 ≠ Ok acc')
  ∧ (k_pos_or_none k = true →
     ∀ st st', (train_item k quality fix_bit_val true it st w).2 ≠ Ok st').
Proof.
  destruct it as [author [[x_mat fy] yt]].
  unfold usable, item_label. simpl. rewrite negb_true_iff. intros Hy Hlen.
  assert (∀ a b, getitem fy 3 = Ok a → getitem fy 4 = Ok b → False) as Hno.
  { intros a b _ Hb%getitem_Ok%lookup_lt_Some. lia. }
  split.
  - intros [[[errors y_pred] y_true] lw] acc'.
    unfold test_item. rewrite Hy.
    unfold py_bind, call_lstm_forward, call_nnet_forward, log_call, lift,
      py_ret, py_bind. simpl.
    repeat (case_match; simpl in *; simplify_eq; try done).
    all: by (exfalso; eapply Hno).
  - intros Hk [errors lf] st'.
    unfold train_item. rewrite Hy, Hk.
    unfold py_bind, call_lstm_forward, call_nnet_forward,
      call_nnet_backward, call_lstm_backward, log_call, lift, py_ret,
      py_bind. simpl.
    repeat (case_match; simpl in *; simplify_eq; try done).
    all: by (exfalso; eapply Hno).
Qed.

(** X11. Where the two loops agree: with no fixed bit value, and [quality] on or
    [k] not positive, an evaluation step that returns has made the calls
    the training step starts with, and has recorded the prediction,
    the target and the error the training step works with. *)
Theorem test_agrees_with_train_forward k quality weighted_learning it
    errors lf errors' y_pred y_true lw w e1 p1 t1 lw1 :
  quality = true ∨ k_gt_0 k = false → usable it = true →
  let tr := train_item k quality None weighted_learning it (errors, lf) w in
  let te := test_item k quality None it (errors', y_pred, y_true, lw) w in
  te.2 = Ok (e1, p1, t1, lw1) →
  ∃ y t, e1 = errors' ++ [(y - t) ^ 2] ∧ p1 = y_pred ++ [y]
    ∧ t1 = y_true ++ [t]
    ∧ new_calls w te.1 `prefix_of` new_calls w tr.1
    ∧ NnetBackward (2 * (y - t)) ∈ new_calls w tr.1
    ∧ (∀ st, tr.2 = Ok st → st.1 = errors ++ [(y - t) ^ 2]).
Proof.
  destruct it as [author [[x_mat fy] yt]].
  unfold usable, item_label. simpl. rewrite negb_true_iff. intros Hq Hy.
  assert (k_gt_0 k || (is_None k && quality) = k_pos_or_none k && quality)
    as Hn.
  { unfold k_pos_or_none.
    destruct Hq as [Hq|Hq]; rewrite Hq.
    - by destruct (k_gt_0 k), (is_None k).
    - by destruct (is_None k), quality. }
  unfold test_item, train_item, new_calls. rewrite Hy, Hn.
  unfold py_bind, call_lstm_forward, call_nnet_forward, call_nnet_backward,
    call_lstm_backward, log_call, lift, py_ret, py_bind. simpl.
  repeat (case_match; simpl in *; simplify_eq; try done).
  all: intros [= <- <- <- <-]; eexists _, _; split_and!; try done.
  all: rewrite <-?(assoc_L (++)); simpl; rewrite ?drop_app_length.
  all: try (by eexists).
  all: try (rewrite !elem_of_cons; by auto).
  all: by intros ? [= <-].
Qed.

(** ** Further properties of the data preparation *)

(** X12. [_rebalance_data] keeps the smaller of the two classes whole and cuts
    the other down to its size: the output has twice as many items as the
    smaller class, and the class that is not larger comes back as a
    permutation of itself; the networks and the log are not touched. *)
Theorem rebalance_keeps_smaller_class (items : list item) w :
  ∃ w' out, _rebalance_data items w = (w', Ok out)
    ∧ length out
      = (2 * (length (filter is_neg items)
              `min` length (filter is_pos items)))%nat
    ∧ (length (filter is_neg items) ≤ length (filter is_pos items) →
       filter is_neg out ≡ₚ filter is_neg items)
    ∧ (length (filter is_pos items) ≤ length (filter is_neg items) →
       filter is_pos out ≡ₚ filter is_pos items)
    ∧ networks_idle w w'.
Proof.
  destruct (rebalance_spec items w)
    as (w' & out & neg & pos & E & Hp & Hneg & Hpos & Hlen & Hn & Hpz & Hi).
  exists w', out. split; [done|].
  pose proof (submseteq_filter_Forall _ _ _ Hneg) as Fneg.
  pose proof (submseteq_filter_Forall _ _ _ Hpos) as Fpos.
  assert (filter is_neg out ≡ₚ neg) as Eneg.
  { rewrite Hp, filter_app, (filter_all is_neg neg) by done.
    rewrite (filter_none is_neg pos); [by rewrite app_nil_r|].
    eapply Forall_impl; [exact Fpos|]. apply is_pos_not_neg. }
  assert (filter is_pos out ≡ₚ pos) as Epos.
  { rewrite Hp, filter_app, (filter_all is_pos pos) by done.
    rewrite (filter_none is_pos neg); [done|].
    eapply Forall_impl; [exact Fneg|]. apply is_neg_not_pos. }
  pose proof (submseteq_length _ _ Hneg) as Ln.
  pose proof (submseteq_length _ _ Hpos) as Lp.
  split_and!; [| | |done].
  - rewrite Hp, length_app.
    destruct (decide (length (filter is_neg items)
                      ≤ length (filter is_pos items))) as [Hle|Hgt].
    + rewrite <-Hlen, (Hn Hle). lia.
    + rewrite Hlen, Hpz by lia. lia.
  - intros Hle. by rewrite Eneg, (Hn Hle).
  - intros Hle. rewrite Epos.
    apply submseteq_length_Permutation; [done|].
    destruct (decide (length (filter is_neg items)
                      ≤ length (filter is_pos items))) as [Hle'|Hgt].
    + rewrite <-Hlen, (Hn Hle'). lia.
    + rewrite Hpz by lia. done.
Qed.

Lemma expand_rows_inv author x_mat exs :
  expand_rows author x_mat [] = Ok exs →
  Forall (λ row, row ≠ []) x_mat
  ∧ length exs = length x_mat
  ∧ Forall (λ ex : item, ex.1 = author ∧ ex.2.1.1 = []
                         ∧ is_Some (item_label ex)) exs.
Proof.
  revert exs. induction x_mat as [|row x_mat IH]; intros exs; simpl.
  - by intros [= <-].
  - unfold getitem_last. destruct (last row) as [lab|] eqn:Hl; [|done].
    simpl. rewrite expand_rows_acc.
    destruct (expand_rows author x_mat []) as [r|e]; [|done].
    simpl. intros [= <-]. destruct (IH r eq_refl) as (H1 & H2 & H3).
    split_and!.
    + constructor; [|done]. by intros ->.
    + simpl. by rewrite H2.
    + constructor; [|done]. simpl. split_and!; [done..|by eexists].
Qed.

Lemma expand_cons it items :
  _expand_to_all (it :: items)
  = result_bind (_expand_to_all [it]) (λ r1,
      result_map (app r1) (_expand_to_all items)).
Proof. apply (expand_app [it]). Qed.

Lemma expand_single_inv it r :
  _expand_to_all [it] = Ok r →
  expandable it
  ∧ length r = S (length it.2.1.1)
  ∧ Forall (λ ex : item, ex.1 = it.1 ∧ ex.2.1.1 = []
                         ∧ is_Some (item_label ex)) r.
Proof.
  destruct it as [author [[x_mat fy] yt]]. unfold _expand_to_all. simpl.
  destruct (expand_rows author x_mat []) as [exs|e] eqn:E; [|done].
  simpl. destruct yt as [ytv|]; [|done]. simpl. intros [= <-].
  destruct (expand_rows_inv _ _ _ E) as (H1 & H2 & H3).
  split_and!.
  - split; [done|by eexists].
  - rewrite length_app. simpl. lia.
  - apply Forall_app. split; [done|].
    constructor; [|done]. simpl. split_and!; [done..|by eexists].
Qed.

Lemma expand_single_ok it :
  expandable it → ∃ r, _expand_to_all [it] = Ok r.
Proof.
  destruct it as [author [[x_mat fy] yt]]. intros [Hrows [ytv Hy]].
  simpl in *. unfold item_label in Hy. simpl in Hy. subst yt.
  destruct (expand_entry_ok author x_mat fy ytv Hrows) as (exs & E & _).
  by eexists.
Qed.

(** X13. [_expand_to_all] returns exactly on the lists whose entries all have a
    numeric label and only rows with a field ([row[-1]] raises on an empty
    row, [yt + 1.0] on [None]); it then returns one example per history
    row and one per entry, each with an empty history, a numeric label and
    the author of an entry of the input. *)
Theorem expand_returns_iff_expandable (items : list item) :
  ((∃ out, _expand_to_all items = Ok out) ↔ Forall expandable items)
  ∧ ∀ out, _expand_to_all items = Ok out →
      length out
      = (length items + sum_list (map (λ it : item, length it.2.1.1) items))%nat
      ∧ Forall (λ ex : item, ex.2.1.1 = [] ∧ is_Some (item_label ex)
                             ∧ ∃ it, it ∈ items ∧ ex.1 = it.1) out.
Proof.
  induction items as [|it items [IH1 IH2]].
  - split; [split; [done|by eexists]|]. by intros out [= <-].
  - rewrite expand_cons. split; [split|].
    + intros [out Hout].
      destruct (_expand_to_all [it]) as [r1|e] eqn:E1; [|done]. simpl in Hout.
      destruct (_expand_to_all items) as [r2|e] eqn:E2; [|done].
      constructor.
      * by apply expand_single_inv in E1 as [? _].
      * apply IH1. by eexists.
    + intros Hall. apply Forall_cons in Hall as [Hit Hall].
      destruct (expand_single_ok it Hit) as [r1 ->].
      apply IH1 in Hall as [r2 ->]. by eexists.
    + intros out.
      destruct (_expand_to_all [it]) as [r1|e] eqn:E1; [|done]. simpl.
      destruct (_expand_to_all items) as [r2|e] eqn:E2; [|done]. simpl.
      intros [= <-].
      apply expand_single_inv in E1 as (_ & L1 & F1).
      destruct (IH2 r2 eq_refl) as [L2 F2].
      split.
      * rewrite length_app, L1, L2. simpl. lia.
      * apply Forall_app. split.
        -- eapply Forall_impl; [exact F1|]. intros ex (?&?&?).
           split_and!; [done..|]. exists it. split; [left|done].
        -- eapply Forall_impl; [exact F2|]. intros ex (?&?&it'&?&?).
           split_and!; [done..|]. exists it'. split; [by right|done].
Qed.

(** X14. In the predictor-only preparation, the current-revision example of an
    entry labelled -1 is relabelled 0 by [_expand_to_all]; 0 is falsy, so
    the training step skips that example: no call, no error recorded. *)
Theorem negative_current_example_never_trains items author x_mat fy yt
    expanded :
  (author, (x_mat, fy, Some yt)) ∈ items → yt == -1 →
  _expand_to_all items = Ok expanded →
  ∃ yt', (author, ([], fy, Some yt')) ∈ expanded ∧ yt' == 0
    ∧ ∀ k quality fix_bit_val weighted_learning st w,
        train_item k quality fix_bit_val weighted_learning
          (author, ([], fy, Some yt')) st w = (w, Ok st).
Proof.
  intros Hin Hyt Hexp. exists (normalize yt).
  assert (normalize yt == 0) as H0.
  { rewrite normalize_eq, Hyt. reflexivity. }
  split_and!; [by eapply expand_elem_of|done|].
  intros. apply train_item_falsy. unfold usable, item_label. simpl.
  by rewrite (Qeq_eq_bool _ _ H0).
Qed.

(** ** Runs that train nothing *)

Lemma train_loop_falsy k quality fix_bit_val weighted_learning items st w :
  Forall (λ it, usable it = false) items →
  for_each items (train_item k quality fix_bit_val weighted_learning) st w
  = (w, Ok st).
Proof.
  induction 1 as [|it items Hit _ IH]; [done|].
  by rewrite for_each_cons, train_item_falsy.
Qed.

Lemma train_iterations_falsy k quality fix_bit_val weighted_learning
    (its : list Z) :
  ∀ l o lf w,
    Forall (λ it, usable it = false) l →
    ∃ g l',
      for_each its
        (λ _, train_iteration k quality fix_bit_val weighted_learning)
        (l, o, lf) w
      = (World (w_lstm w) (w_nnet w) g (w_log w),
         Ok (l', match its with [] => o | _ => Some [] end, lf)).
Proof.
  induction its as [|i its IH]; intros l o lf w Hl.
  - exists (w_rng w), l. by destruct w.
  - rewrite for_each_cons.
    unfold train_iteration at 1, py_bind at 1, py_random_shuffle.
    pose proof (random_shuffle_perm (w_rng w) l) as Hp.
    destruct (random_shuffle (w_rng w) l) as [g l1]. simpl in Hp.
    assert (Forall (λ it, usable it = false) l1) as Hl1 by by rewrite Hp.
    unfold py_bind. rewrite train_loop_falsy by done. simpl.
    destruct (IH l1 (Some []) lf (World (w_lstm w) (w_nnet w) g (w_log w)) Hl1)
      as (g' & l' & ->).
    exists g', l'. by destruct its.
Qed.

(** X15. A run of at least one pass over a list without a usable target (an
    empty list among them) calls neither network and returns the two
    freshly initialised networks with an empty error list. *)
Theorem training_without_targets data_list (k : option Z) N (quality : bool)
    fix_bit_val weighted_learning w :
  Forall (λ it, usable it = false) data_list → (0 < N)%Z →
  ∃ g,
    let lstm := lstm_initialize
                  (if quality then Nf_quality else Nf_existence) M in
    let nnet := dnn_initialize
                  (match k with
                   | Some k => [k + 12; k + 12 + M `div` 2; 1]
                   | None => [12 + 12; 12 + 12 + M `div` 2; 1]
                   end)%Z in
    _train_nn_with_k_lstm_bits data_list k N quality fix_bit_val
      weighted_learning w
    = (World lstm nnet g (w_log w), Ok (lstm, nnet, [])).
Proof.
  intros Hall HN. rewrite train_unfold. unfold py_bind.
  match goal with |- context [for_each ?a ?b ?c ?d] =>
    destruct (train_iterations_falsy k quality fix_bit_val weighted_learning
                a data_list None 1 d Hall) as (g & l' & ->) end.
  exists g. rewrite seqZ_cons by done. done.
Qed.

(** X16. With [balanced] on and a dict in which one of the two classes is
    empty, [train_nn_using_k_lstm_bit] trains on the empty list: for
    [N > 0] it calls neither network and returns the freshly initialised
    pair. *)
Theorem one_class_dict_trains_nothing (train_dict : gmap string entry) k N
    quality fix_bit_val weighted_learning w :
  filter is_neg (map_to_list train_dict) = []
  ∨ filter is_pos (map_to_list train_dict) = [] →
  (0 < N)%Z →
  ∃ w',
    train_nn_using_k_lstm_bit train_dict k N quality fix_bit_val
      weighted_learning true w
    = (w', Ok (lstm_initialize
                 (if quality then Nf_quality else Nf_existence) M,
               dnn_initialize
                 (match k with
                  | Some k => [k + 12; k + 12 + M `div` 2; 1]
                  | None => [12 + 12; 12 + 12 + M `div` 2; 1]
                  end)%Z))
    ∧ w_log w' = w_log w.
Proof.
  intros Hone HN. unfold train_nn_using_k_lstm_bit, py_bind.
  destruct (rebalance_spec (map_to_list train_dict) w)
    as (w1 & out & neg & pos & -> & Hp & Hneg & Hpos & Hlen & _ & _ & _ & _ & El).
  assert (out = []) as ->.
  { destruct Hone as [E0|E0]; rewrite E0 in *.
    - apply submseteq_nil_r in Hneg as ->.
      symmetry in Hlen. apply nil_length_inv in Hlen as ->.
      by apply Permutation_nil_r in Hp.
    - apply submseteq_nil_r in Hpos as ->.
      apply nil_length_inv in Hlen as ->.
      by apply Permutation_nil_r in Hp. }
  rewrite train_unfold. unfold py_bind.
  match goal with |- context [for_each ?a ?b ?c ?d] =>
    destruct (train_iterations_falsy k quality fix_bit_val weighted_learning
                a [] None 1 d (Forall_nil_2 _)) as (g & l' & ->) end.
  rewrite seqZ_cons by done. eexists. split; [done|]. done.
Qed.

(** ** The gradient handed to the encoder *)

Lemma length_np_resize a n : length (np_resize a n) = n.
Proof.
  destruct a as [|x a]; simpl; [apply length_replicate|].
  rewrite length_take, length_join, fmap_replicate, sum_list_replicate.
  simpl. nia.
Qed.

Lemma length_slice_to_le k v : length (slice_to k v) ≤ length v.
Proof.
  destruct k as [z|]; simpl; [|done].
  case_match; rewrite length_take; lia.
Qed.

Lemma length_assign_slice_to k dst src :
  length src = length dst → length (assign_slice_to k dst src) = length dst.
Proof.
  intros Hlen. unfold assign_slice_to.
  pose proof (length_slice_to_le k src).
  rewrite length_app, length_drop. lia.
Qed.

Lemma assign_slice_to_zero_fill z n src i :
  length src = n → (0 < z)%Z → (Z.to_nat z ≤ i < n)%nat →
  assign_slice_to (Some z) (np_zeros n) src !! i = Some 0.
Proof.
  intros Hlen Hz Hi. unfold assign_slice_to, np_zeros. simpl.
  rewrite (proj2 (Z.leb_le 0 z)) by lia.
  rewrite lookup_app_r; rewrite length_take; [|lia].
  rewrite lookup_drop, lookup_replicate_2; [done|lia].
Qed.

Lemma assign_slice_to_prefix z n src i :
  length src = n → (0 < z)%Z → (i < Z.to_nat z)%nat → (i < n)%nat →
  assign_slice_to (Some z) (np_zeros n) src !! i = src !! i.
Proof.
  intros Hlen Hz Hi Hn. unfold assign_slice_to, np_zeros. simpl.
  rewrite (proj2 (Z.leb_le 0 z)) by lia.
  rewrite lookup_app_l; [by apply lookup_take_lt|].
  rewrite length_take. lia.
Qed.

Lemma train_item_gradient k quality weighted_learning author x_mat fy yt
    errors lf w s Y g lf' :
  lstm_forward (w_lstm w) x_mat = Ok (s, Y) →
  LstmBackward g lf'
  ∈ new_calls w (train_item k quality None weighted_learning
                   (author, (x_mat, fy, yt)) (errors, lf) w).1 →
  k_pos_or_none k = true
  ∧ ∃ ytv n1 y n2 bp_res,
      yt = Some ytv
      ∧ dnn_forward (w_nnet w) (slice_to k Y ++ fy) = Ok (n1, y)
      ∧ dnn_backward_adadelta n1
          (2 * (y - (if quality then normalize ytv else ytv)))
        = Ok (n2, bp_res)
      ∧ g = assign_slice_to k (np_zeros (length Y))
              (np_resize bp_res (length Y)).
Proof.
  intros Hl. unfold train_item, new_calls.
  destruct (py_not yt); [simpl; rewrite drop_all; by intros ?%elem_of_nil|].
  destruct (k_pos_or_none k) eqn:Hk; simpl.
  - unfold py_bind, call_lstm_forward, call_nnet_forward,
      call_nnet_backward, call_lstm_backward, log_call, lift, py_ret,
      py_bind. simpl. rewrite Hl. simpl.
    repeat (case_match; simpl in *; simplify_eq; try done).
    all: rewrite <-?(assoc_L (++)); simpl; rewrite ?drop_app_length.
    all: rewrite ?elem_of_cons, ?elem_of_nil; intros Hin.
    all: repeat (destruct Hin as [Hin|Hin]; simplify_eq); try done.
    all: destruct yt as [ytv|]; simplify_eq/=.
    all: split; [done|]; eexists _, _, _, _, _.
    all: split_and!; first [reflexivity|eassumption].
  - unfold py_bind, call_nnet_forward, call_nnet_backward, log_call, lift,
      py_ret, py_bind. simpl.
    repeat (case_match; simpl in *; simplify_eq; try done).
    all: rewrite <-?(assoc_L (++)); simpl; rewrite ?drop_app_length.
    all: rewrite ?elem_of_cons, ?elem_of_nil; intros Hin.
    all: repeat (destruct Hin as [Hin|Hin]; simplify_eq); try done.
Qed.

(** X17. With no fixed bit value, the gradient a training step hands to the
    encoder's backward call is built from what the predictor's backward
    call returned on this item: with [y] the predictor's output on the
    first [k] bits of the encoder's output [Y] followed by [fy], and
    [bp_res] what [nnet.backward_adadelta(2 (y - yt))] returned, the
    gradient has the width of [Y]; with a positive [k] its entries from
    position [k] on are zero and the first [k] are those of [bp_res]
    resized to that width; with [k] [None] it is the resized [bp_res]. *)
Theorem encoder_gradient_shape k quality weighted_learning author x_mat fy yt
    errors lf w s Y g lf' :
  lstm_forward (w_lstm w) x_mat = Ok (s, Y) →
  LstmBackward g lf'
  ∈ new_calls w (train_item k quality None weighted_learning
                   (author, (x_mat, fy, yt)) (errors, lf) w).1 →
  ∃ ytv n1 y n2 bp_res,
    yt = Some ytv
    ∧ dnn_forward (w_nnet w) (slice_to k Y ++ fy) = Ok (n1, y)
    ∧ dnn_backward_adadelta n1
        (2 * (y - (if quality then normalize ytv else ytv)))
      = Ok (n2, bp_res)
    ∧ length g = length Y
    ∧ (∀ z i, k = Some z → (Z.to_nat z ≤ i < length Y)%nat →
              g !! i = Some 0)
    ∧ (∀ z i, k = Some z → (i < Z.to_nat z)%nat → (i < length Y)%nat →
              g !! i = np_resize bp_res (length Y) !! i)
    ∧ (k = None → g = np_resize bp_res (length Y)).
Proof.
  intros Hl Hin.
  destruct (train_item_gradient _ _ _ _ _ _ _ _ _ _ _ _ _ _ Hl Hin)
    as (Hk & ytv & n1 & y & n2 & bp_res & Hyt & Hf & Hb & ->).
  exists ytv, n1, y, n2, bp_res. split_and!; [done..| | | |].
  - unfold np_zeros.
    rewrite length_assign_slice_to; [apply length_replicate|].
    by rewrite length_np_resize, length_replicate.
  - intros z i -> Hi. unfold k_pos_or_none in Hk. simpl in Hk.
    rewrite orb_false_r in Hk. apply Z.ltb_lt in Hk.
    apply assign_slice_to_zero_fill; [apply length_np_resize|done..].
  - intros z i -> Hi Hn. unfold k_pos_or_none in Hk. simpl in Hk.
    rewrite orb_false_r in Hk. apply Z.ltb_lt in Hk.
    apply assign_slice_to_prefix; [apply length_np_resize|done..].
  - intros ->. unfold assign_slice_to, np_zeros. simpl.
    rewrite length_np_resize, drop_ge, app_nil_r; [done|].
    by rewrite length_replicate.
Qed.

(** ** The evaluation entry points *)

(** X18. [test_nn_only] makes forward calls on the predictor and no other call:
    none on the encoder, no backward call; the encoder is left as it
    was. *)
Theorem test_nn_only_predictor_forward_only (test_dict : gmap string entry)
    fix_bit_val w :
  let w' := (test_nn_only test_dict fix_bit_val w).1 in
  Forall (λ c, ∃ x, c = NnetForward x) (new_calls w w')
  ∧ w_lstm w' = w_lstm w.
Proof.
  assert ((test_nn_only test_dict fix_bit_val w).1
          = (_test_nn_with_k_lstm_bits test_dict (Some 0%Z) true fix_bit_val
               w).1) as ->.
  { unfold test_nn_only, py_bind.
    by destruct (_test_nn_with_k_lstm_bits test_dict (Some 0%Z) true
                   fix_bit_val w) as [w1 [[[[e p] t] l]|e]]. }
  destruct (test_run_tracks test_dict (Some 0%Z) true fix_bit_val w)
    as [Hg Hs].
  split; [|by apply Hs].
  apply grows_new_calls in Hg. eapply Forall_impl; [exact Hg|].
  intros [x|g lf|x|dy]; simpl; try done.
  - intros [Hk _]. by compute in Hk.
  - by eexists.
Qed.

(** X19. The scores [test_nn_using_k_lstm_bit] returns are those
    [precision_recall_fscore_support] gives on two arrays of zeros and ones
    of the same length, one position per entry with a usable target: a one
    where the recorded target, or the prediction, is below 0.5. *)
Theorem test_scores_on_parallel_buckets (test_dict : gmap string entry) k
    quality w w' errors y_pred y_true label_weights scores :
  test_nn_using_k_lstm_bit test_dict k quality w
  = (w', Ok (errors, y_pred, y_true, label_weights, scores)) →
  let n := length (filter usable (map_to_list test_dict)) in
  ∃ Y_true Y_pred support,
    precision_recall_fscore_support Y_true Y_pred = (scores, support)
    ∧ length Y_true = n ∧ length Y_pred = n
    ∧ (∀ i, Y_true !! i
            = (λ q, if Qltb q (1 # 2) then 1%Z else 0%Z) <$> y_true !! i)
    ∧ (∀ i, Y_pred !! i
            = (λ q, if Qltb q (1 # 2) then 1%Z else 0%Z) <$> y_pred !! i).
Proof.
  unfold test_nn_using_k_lstm_bit, py_bind.
  destruct (_test_nn_with_k_lstm_bits test_dict k quality None w)
    as [w1 [[[[e p] t] l]|e]] eqn:E; [|done].
  intros [= <- <- <- <- <- <-].
  pose proof (evaluation_lengths test_dict k quality None w e p t l) as Hl.
  rewrite E in Hl. destruct (Hl eq_refl) as (_ & Hp & Ht & _).
  unfold _error_measurement.
  destruct (precision_recall_fscore_support (map bucket t) (map bucket p))
    as [[[precision recall] fscore] support] eqn:Em.
  exists (map bucket t), (map bucket p), support.
  split_and!; [done|by rewrite length_map..| |];
    intros i; by rewrite list_lookup_fmap.
Qed.

End Learning.

(** ** The theorems on the small instance *)

Abbreviation toy_world := (World nat nat unit 0%nat 0%nat tt []).

Lemma toy_shuffle_perm g l : (toy_shuffle g l).2 ≡ₚ l.
Proof. apply reverse_Permutation. Qed.

Lemma toy_sample_sub g l n : (n ≤ length l)%nat → (toy_sample g l n).2 ⊆+ l.
Proof. intros _. apply sublist_submseteq, sublist_take. Qed.

Lemma toy_sample_length g l n :
  (n ≤ length l)%nat → length (toy_sample g l n).2 = n.
Proof. intros Hn. simpl. rewrite length_take. lia. Qed.

Lemma toy_dnn_forward_total (s : nat) (v : vec) :
  ∃ s' y, toy_dnn_forward s v = Ok (s', y).
Proof. by eexists _, _. Qed.

Lemma toy_dnn_backward_total (s : nat) (dy : Q) :
  ∃ s' bp, toy_dnn_backward s dy = Ok (s', bp).
Proof. by eexists _, _. Qed.

Lemma rebalance_balanced_witness :
  ∃ w' out,
    _rebalance_data nat nat unit toy_sample toy_shuffle
      [toy_neg; toy_pos; toy_half; toy_pos] toy_world = (w', Ok out)
    ∧ length (filter is_neg out) = length (filter is_pos out)
    ∧ (filter is_neg [toy_neg; toy_pos; toy_half; toy_pos] = []
       ∨ filter is_pos [toy_neg; toy_pos; toy_half; toy_pos] = [] →
       out = []).
Proof.
  exact (rebalance_balanced nat nat unit toy_sample toy_shuffle
           toy_shuffle_perm toy_sample_sub toy_sample_length
           [toy_neg; toy_pos; toy_half; toy_pos] toy_world).
Defined.

Lemma rebalance_subset_witness :
  ∃ w' out,
    _rebalance_data nat nat unit toy_sample toy_shuffle
      [toy_neg; toy_pos; toy_half; toy_pos] toy_world = (w', Ok out)
    ∧ (∀ it, it ∈ out → it ∈ [toy_neg; toy_pos; toy_half; toy_pos])
    ∧ (length out ≤ 4)%nat.
Proof.
  exact (rebalance_subset nat nat unit toy_sample toy_shuffle
           toy_shuffle_perm toy_sample_sub toy_sample_length
           [toy_neg; toy_pos; toy_half; toy_pos] toy_world).
Defined.

Lemma rebalance_drops_label_half_witness :
  (∃ w' out,
     _rebalance_data nat nat unit toy_sample toy_shuffle
       [toy_neg; toy_pos; toy_half; toy_pos] toy_world = (w', Ok out)
     ∧ toy_half ∉ out)
  ∧ (∃ w' out expanded yt',
       train_nn_only_items nat nat unit toy_sample toy_shuffle
         {[ "d"%string := toy_zero.2 ]} toy_world = (w', Ok out)
       ∧ _expand_to_all (map_to_list {[ "d"%string := toy_zero.2 ]})
         = Ok expanded
       ∧ yt' == 1 # 2
       ∧ ("d"%string, ([], [1; 2; 3; 4; 5], Some yt')) ∈ expanded
       ∧ ("d"%string, ([], [1; 2; 3; 4; 5], Some yt')) ∉ out).
Proof.
  destruct (rebalance_drops_label_half nat nat unit toy_sample toy_shuffle
              toy_shuffle_perm toy_sample_sub toy_sample_length)
    as [H1 H2].
  split.
  - eexists _, _. split; [vm_compute; reflexivity|].
    eapply (H1 [toy_neg; toy_pos; toy_half; toy_pos] toy_world);
      [vm_compute; reflexivity|reflexivity|reflexivity].
  - destruct (H2 {[ "d"%string := toy_zero.2 ]} "d"%string [[1; 2; 3]]
                [1; 2; 3; 4; 5] 0 toy_world toy_world [])
      as (expanded & yt' & E & Hyt & Hin & Hout);
      [vm_compute; reflexivity|reflexivity|vm_compute; reflexivity|].
    exists toy_world, [], expanded, yt'.
    split; [vm_compute; reflexivity|done].
Defined.



Lemma learning_rate_scale_witness :
  (∀ g lf',
     LstmBackward g lf'
     ∈ new_calls nat nat unit toy_world
         (train_item nat nat toy_lstm_forward toy_lstm_backward
            toy_dnn_forward toy_dnn_backward unit (Some 1%Z) true None true
            toy_neg ([], 1) toy_world).1 →
     lf' == ((4 + 5) / 2) ^ 2)
  ∧ (∃ g lf',
       LstmBackward g lf'
       ∈ new_calls nat nat unit toy_world
           (train_item nat nat toy_lstm_forward toy_lstm_backward
              toy_dnn_forward toy_dnn_backward unit (Some 1%Z) true None true
              toy_neg ([], 1) toy_world).1)
  ∧ (∀ g lf',
       LstmBackward g lf'
       ∈ new_calls nat nat unit toy_world
           (_train_nn_with_k_lstm_bits nat nat toy_lstm_initialize
              toy_lstm_forward toy_lstm_backward toy_dnn_initialize
              toy_dnn_forward toy_dnn_backward unit toy_shuffle
              [toy_neg; toy_pos] (Some 1%Z) 3 true None false toy_world).1 →
       lf' = 1).
Proof.
  destruct (learning_rate_scale nat nat toy_lstm_initialize toy_lstm_forward
              toy_lstm_backward toy_dnn_initialize toy_dnn_forward
              toy_dnn_backward unit toy_shuffle toy_shuffle_perm
              (Some 1%Z) true None) as (H1 & H2 & H3).
  split_and!.
  - intros g lf' Hin.
    destruct (H1 "a"%string [[1; 2; 3]] [1; 2; 3; 4; 5] (Some (-1)) [] 1
                toy_world g lf' Hin) as (a & b & [= <-] & [= <-] & Hlf).
    exact Hlf.
  - eapply (H2 "a"%string [[1; 2; 3]] [1; 2; 3; 4; 5] (Some (-1)) [] 1
              toy_world); reflexivity.
  - apply H3.
Defined.

Lemma falsy_target_skipped_witness :
  train_item nat nat toy_lstm_forward toy_lstm_backward toy_dnn_forward
    toy_dnn_backward unit (Some 1%Z) true None false toy_zero ([], 1)
    toy_world = (toy_world, Ok ([], 1))
  ∧ test_item nat nat toy_lstm_forward toy_dnn_forward unit (Some 1%Z) true
      None toy_zero ([], [], [], []) toy_world
    = (toy_world, Ok ([], [], [], [])).
Proof.
  apply (falsy_target_skipped nat nat toy_lstm_forward toy_lstm_backward
           toy_dnn_forward toy_dnn_backward unit (Some 1%Z) true None false
           "d"%string [[1; 2; 3]] [1; 2; 3; 4; 5] (Some 0)).
  reflexivity.
Defined.

Lemma fix_bit_val_backward_invoked_witness :
  (∃ dy,
     new_calls nat nat unit toy_world
       (_train_nn_with_k_lstm_bits nat nat toy_lstm_initialize
          toy_lstm_forward toy_lstm_backward toy_dnn_initialize
          toy_dnn_forward toy_dnn_backward unit toy_shuffle
          [toy_pos] (Some 1%Z) 1 true (Some (PyList [1])) false toy_world).1
     = [NnetForward ([1] ++ [5; 4; 3; 2; 1]); NnetBackward dy;
        LstmBackward [] 1])
  ∧ w_lstm nat nat unit
      (_train_nn_with_k_lstm_bits nat nat toy_lstm_initialize
         toy_lstm_forward toy_lstm_backward toy_dnn_initialize
         toy_dnn_forward toy_dnn_backward unit toy_shuffle
         [toy_pos] (Some 1%Z) 1 true (Some (PyList [1])) false toy_world).1
    = 1%nat
  ∧ toy_lstm_initialize Nf_quality M = 0%nat.
Proof.
  destruct (fix_bit_val_backward_invoked nat nat toy_lstm_initialize
              toy_lstm_forward toy_lstm_backward toy_dnn_initialize
              toy_dnn_forward toy_dnn_backward unit toy_shuffle
              toy_shuffle_perm (Some 1%Z) true [1] "b"%string []
              [5; 4; 3; 2; 1] 1 toy_world eq_refl eq_refl
              toy_dnn_forward_total toy_dnn_backward_total) as [H1 H2].
  split_and!; [exact H1|by apply H2|reflexivity].
Defined.

Lemma test_normalizes_where_train_does_not_witness :
  (test_item nat nat toy_lstm_forward toy_dnn_forward unit (Some 1%Z) false
     None toy_neg ([], [], [], []) toy_world).2
  = Ok ([(0 - normalize (-1)) ^ 2], [0], [normalize (-1)],
        [np_average [4; 5]])
  ∧ NnetBackward (2 * (0 - -1))
    ∈ new_calls nat nat unit toy_world
        (train_item nat nat toy_lstm_forward toy_lstm_backward
           toy_dnn_forward toy_dnn_backward unit (Some 1%Z) false None false
           toy_neg ([], 1) toy_world).1
  ∧ (∀ st,
       (train_item nat nat toy_lstm_forward toy_lstm_backward
          toy_dnn_forward toy_dnn_backward unit (Some 1%Z) false None false
          toy_neg ([], 1) toy_world).2 = Ok st →
       st.1 = [(0 - -1) ^ 2])
  ∧ normalize (-1) == (-1 + 1) / 2
  ∧ ¬ normalize (-1) == -1.
Proof.
  destruct (test_normalizes_where_train_does_not nat nat toy_lstm_forward
              toy_lstm_backward toy_dnn_forward toy_dnn_backward unit
              (Some 1%Z) false "a"%string [[1; 2; 3]] [1; 2; 3; 4; 5] (-1)
              [] 1 [] [] [] [] toy_world 0%nat [1; 1] 0%nat 0 4 5
              eq_refl eq_refl eq_refl eq_refl eq_refl eq_refl)
    as (H1 & H2 & H3 & H4 & H5).
  split_and!; [exact H1|exact H2|exact H3|exact H4|].
  apply H5. discriminate.
Defined.

(** *** The further properties on the small instance *)

Lemma encoder_idle_when_k_not_positive_witness :
  w_lstm nat nat unit
    (_train_nn_with_k_lstm_bits nat nat toy_lstm_initialize toy_lstm_forward
       toy_lstm_backward toy_dnn_initialize toy_dnn_forward toy_dnn_backward
       unit toy_shuffle [toy_neg; toy_pos] (Some 0%Z) 2 true None false
       toy_world).1
  = toy_lstm_initialize Nf_quality M
  ∧ Forall (λ c, is_lstm_call c = false)
      (new_calls nat nat unit toy_world
         (_train_nn_with_k_lstm_bits nat nat toy_lstm_initialize
            toy_lstm_forward toy_lstm_backward toy_dnn_initialize
            toy_dnn_forward toy_dnn_backward unit toy_shuffle
            [toy_neg; toy_pos] (Some 0%Z) 2 true None false toy_world).1).
Proof.
  exact (encoder_idle_when_k_not_positive nat nat toy_lstm_initialize
           toy_lstm_forward toy_lstm_backward toy_dnn_initialize
           toy_dnn_forward toy_dnn_backward unit toy_shuffle toy_shuffle_perm
           [toy_neg; toy_pos] (Some 0%Z) 2 true None false toy_world
           eq_refl).
Defined.

Lemma fixed_bit_never_runs_encoder_forward_witness :
  Forall (λ c, ∀ x, c ≠ LstmForward x)
    (new_calls nat nat unit toy_world
       (_train_nn_with_k_lstm_bits nat nat toy_lstm_initialize
          toy_lstm_forward toy_lstm_backward toy_dnn_initialize
          toy_dnn_forward toy_dnn_backward unit toy_shuffle [toy_pos]
          (Some 1%Z) 1 true (Some (PyList [1])) false toy_world).1)
  ∧ Forall (λ c, ∀ x, c ≠ LstmForward x)
      (new_calls nat nat unit toy_world
         (_test_nn_with_k_lstm_bits nat nat toy_lstm_forward toy_dnn_forward
            unit toy_dict (Some 1%Z) true (Some (PyList [1])) toy_world).1).
Proof.
  exact (fixed_bit_never_runs_encoder_forward nat nat toy_lstm_initialize
           toy_lstm_forward toy_lstm_backward toy_dnn_initialize
           toy_dnn_forward toy_dnn_backward unit toy_shuffle toy_shuffle_perm
           [toy_pos] toy_dict (Some 1%Z) 1 true (PyList [1]) false
           toy_world).
Defined.

Lemma train_nn_only_never_calls_encoder_witness :
  Forall (λ c, is_lstm_call c = false)
    (new_calls nat nat unit toy_world
       (train_nn_only nat nat toy_lstm_initialize toy_lstm_forward
          toy_lstm_backward toy_dnn_initialize toy_dnn_forward
          toy_dnn_backward unit toy_shuffle toy_sample toy_shuffle toy_dict 1
          false toy_world).1)
  ∧ ∀ lstm nnet,
      (train_nn_only nat nat toy_lstm_initialize toy_lstm_forward
         toy_lstm_backward toy_dnn_initialize toy_dnn_forward
         toy_dnn_backward unit toy_shuffle toy_sample toy_shuffle toy_dict 1
         false toy_world).2 = Ok (lstm, nnet) →
      lstm = toy_lstm_initialize Nf_quality M.
Proof.
  exact (train_nn_only_never_calls_encoder nat nat toy_lstm_initialize
           toy_lstm_forward toy_lstm_backward toy_dnn_initialize
           toy_dnn_forward toy_dnn_backward unit toy_shuffle toy_sample
           toy_shuffle toy_shuffle_perm toy_shuffle_perm toy_sample_sub
           toy_sample_length toy_dict 1 false toy_world).
Defined.

Lemma evaluation_without_targets_witness :
  _test_nn_with_k_lstm_bits nat nat toy_lstm_forward toy_dnn_forward unit
    {[ "d"%string := toy_zero.2 ]} (Some 1%Z) true None toy_world
  = (toy_world, Ok ([], [], [], [])).
Proof.
  apply (evaluation_without_targets nat nat toy_lstm_forward toy_dnn_forward
           unit {[ "d"%string := toy_zero.2 ]} (Some 1%Z) true None
           toy_world).
  intros author e [_ <-]%lookup_singleton_Some. reflexivity.
Defined.

Lemma training_without_iterations_witness :
  ∃ w',
    _train_nn_with_k_lstm_bits nat nat toy_lstm_initialize toy_lstm_forward
      toy_lstm_backward toy_dnn_initialize toy_dnn_forward toy_dnn_backward
      unit toy_shuffle [toy_pos] (Some 1%Z) 0 true None false toy_world
    = (w', Raise UnboundLocalError)
    ∧ w_lstm nat nat unit w' = toy_lstm_initialize Nf_quality M
    ∧ w_nnet nat nat unit w'
      = toy_dnn_initialize [1 + 12; 1 + 12 + M `div` 2; 1]%Z
    ∧ w_log nat nat unit w' = [] ∧ w_rng nat nat unit w' = tt.
Proof.
  apply (training_without_iterations nat nat toy_lstm_initialize
           toy_lstm_forward toy_lstm_backward toy_dnn_initialize
           toy_dnn_forward toy_dnn_backward unit toy_shuffle [toy_pos]
           (Some 1%Z) 0 true None false toy_world).
  lia.
Defined.

Lemma evaluation_lists_parallel_witness :
  ∃ errors y_pred y_true label_weights,
    (_test_nn_with_k_lstm_bits nat nat toy_lstm_forward toy_dnn_forward unit
       toy_dict (Some 1%Z) true None toy_world).2
    = Ok (errors, y_pred, y_true, label_weights)
    ∧ let n := length (filter usable (map_to_list toy_dict)) in
      length errors = n ∧ length y_pred = n ∧ length y_true = n
      ∧ length label_weights = n
      ∧ ∀ i y t, y_pred !! i = Some y → y_true !! i = Some t →
          errors !! i = Some ((y - t) ^ 2).
Proof.
  eexists _, _, _, _. split; [vm_compute; reflexivity|].
  apply (evaluation_lists_parallel nat nat toy_lstm_forward toy_dnn_forward
           unit toy_dict (Some 1%Z) true None toy_world).
  vm_compute; reflexivity.
Defined.

Lemma training_errors_length_witness :
  ∃ w' lstm nnet errors,
    _train_nn_with_k_lstm_bits nat nat toy_lstm_initialize toy_lstm_forward
      toy_lstm_backward toy_dnn_initialize toy_dnn_forward toy_dnn_backward
      unit toy_shuffle [toy_neg; toy_zero] (Some 1%Z) 2 true None false
      toy_world
    = (w', Ok (lstm, nnet, errors))
    ∧ (0 < 2)%Z
    ∧ length errors = length (filter usable [toy_neg; toy_zero])
    ∧ lstm = w_lstm nat nat unit w' ∧ nnet = w_nnet nat nat unit w'.
Proof.
  eexists _, _, _, _. split; [vm_compute; reflexivity|].
  apply (training_errors_length nat nat toy_lstm_initialize toy_lstm_forward
           toy_lstm_backward toy_dnn_initialize toy_dnn_forward
           toy_dnn_backward unit toy_shuffle toy_shuffle_perm
           [toy_neg; toy_zero] (Some 1%Z) 2 true None false toy_world).
  vm_compute; reflexivity.
Defined.

Lemma fixed_bit_shape_mismatch_witness :
  (∀ q,
     train_item nat nat toy_lstm_forward toy_lstm_backward toy_dnn_forward
       toy_dnn_backward unit (Some 1%Z) true (Some (PyNum q)) false toy_pos
       ([], 1) toy_world
     = (toy_world, Raise ValueError))
  ∧ (∀ l,
       test_item nat nat toy_lstm_forward toy_dnn_forward unit (Some 1%Z)
         true (Some (PyList l)) toy_pos ([], [], [], []) toy_world
       = (toy_world, Raise ValueError)).
Proof.
  apply (fixed_bit_shape_mismatch nat nat toy_lstm_forward toy_lstm_backward
           toy_dnn_forward toy_dnn_backward unit (Some 1%Z) true false
           toy_pos ([], 1) ([], [], [], []) toy_world).
  reflexivity.
Defined.

Lemma short_feature_vector_raises_witness :
  (∀ acc acc',
     (test_item nat nat toy_lstm_forward toy_dnn_forward unit (Some 1%Z) true
        None toy_short acc toy_world).2 ≠ Ok acc')
  ∧ (k_pos_or_none (Some 1%Z) = true →
     ∀ st st',
       (train_item nat nat toy_lstm_forward toy_lstm_backward toy_dnn_forward
          toy_dnn_backward unit (Some 1%Z) true None true toy_short st
          toy_world).2 ≠ Ok st').
Proof.
  apply (short_feature_vector_raises nat nat toy_lstm_forward
           toy_lstm_backward toy_dnn_forward toy_dnn_backward unit
           (Some 1%Z) true None toy_short toy_world).
  - reflexivity.
  - simpl. lia.
Defined.

Lemma test_agrees_with_train_forward_witness :
  ∃ e1 p1 t1 lw1,
    let tr := train_item nat nat toy_lstm_forward toy_lstm_backward
                toy_dnn_forward toy_dnn_backward unit (Some 1%Z) true None
                false toy_neg ([], 1) toy_world in
    let te := test_item nat nat toy_lstm_forward toy_dnn_forward unit
                (Some 1%Z) true None toy_neg ([], [], [], []) toy_world in
    te.2 = Ok (e1, p1, t1, lw1)
    ∧ ∃ y t, e1 = [] ++ [(y - t) ^ 2] ∧ p1 = [] ++ [y] ∧ t1 = [] ++ [t]
        ∧ new_calls nat nat unit toy_world te.1
          `prefix_of` new_calls nat nat unit toy_world tr.1
        ∧ NnetBackward (2 * (y - t)) ∈ new_calls nat nat unit toy_world tr.1
        ∧ (∀ st, tr.2 = Ok st → st.1 = [] ++ [(y - t) ^ 2]).
Proof.
  eexists _, _, _, _. split; [reflexivity|].
  eapply (test_agrees_with_train_forward nat nat toy_lstm_forward
           toy_lstm_backward toy_dnn_forward toy_dnn_backward unit
           (Some 1%Z) true false toy_neg [] 1 [] [] [] [] toy_world).
  - by left.
  - reflexivity.
  - reflexivity.
Defined.

Lemma rebalance_keeps_smaller_class_witness :
  ∃ w' out,
    _rebalance_data nat nat unit toy_sample toy_shuffle
      [toy_neg; toy_pos; toy_half; toy_pos] toy_world = (w', Ok out)
    ∧ length out
      = (2 * (length (filter is_neg [toy_neg; toy_pos; toy_half; toy_pos])
              `min` length
                      (filter is_pos [toy_neg; toy_pos; toy_half; toy_pos])))%nat
    ∧ (length (filter is_neg [toy_neg; toy_pos; toy_half; toy_pos])
       ≤ length (filter is_pos [toy_neg; toy_pos; toy_half; toy_pos]) →
       filter is_neg out
       ≡ₚ filter is_neg [toy_neg; toy_pos; toy_half; toy_pos])
    ∧ (length (filter is_pos [toy_neg; toy_pos; toy_half; toy_pos])
       ≤ length (filter is_neg [toy_neg; toy_pos; toy_half; toy_pos]) →
       filter is_pos out
       ≡ₚ filter is_pos [toy_neg; toy_pos; toy_half; toy_pos])
    ∧ networks_idle nat nat unit toy_world w'.
Proof.
  exact (rebalance_keeps_smaller_class nat nat unit toy_sample toy_shuffle
           toy_shuffle_perm toy_sample_sub toy_sample_length
           [toy_neg; toy_pos; toy_half; toy_pos] toy_world).
Defined.

Lemma negative_current_example_never_trains_witness :
  ∃ expanded,
    _expand_to_all [toy_pos; toy_neg] = Ok expanded
    ∧ ∃ yt', ("a"%string, ([], [1; 2; 3; 4; 5], Some yt')) ∈ expanded
        ∧ yt' == 0
        ∧ ∀ k quality fix_bit_val weighted_learning st w,
            train_item nat nat toy_lstm_forward toy_lstm_backward
              toy_dnn_forward toy_dnn_backward unit k quality fix_bit_val
              weighted_learning
              ("a"%string, ([], [1; 2; 3; 4; 5], Some yt')) st w
            = (w, Ok st).
Proof.
  eexists. split; [reflexivity|].
  apply (negative_current_example_never_trains nat nat toy_lstm_forward
           toy_lstm_backward toy_dnn_forward toy_dnn_backward unit
           [toy_pos; toy_neg] "a"%string [[1; 2; 3]] [1; 2; 3; 4; 5] (-1)).
  - apply elem_of_cons. right. apply elem_of_cons. by left.
  - reflexivity.
  - reflexivity.
Defined.

Lemma training_without_targets_witness :
  ∃ g,
    _train_nn_with_k_lstm_bits nat nat toy_lstm_initialize toy_lstm_forward
      toy_lstm_backward toy_dnn_initialize toy_dnn_forward toy_dnn_backward
      unit toy_shuffle [toy_zero; toy_zero] (Some 1%Z) 2 true None false
      toy_world
    = (World nat nat unit (toy_lstm_initialize Nf_quality M)
         (toy_dnn_initialize [1 + 12; 1 + 12 + M `div` 2; 1]%Z) g [],
       Ok (toy_lstm_initialize Nf_quality M,
           toy_dnn_initialize [1 + 12; 1 + 12 + M `div` 2; 1]%Z, [])).
Proof.
  apply (training_without_targets nat nat toy_lstm_initialize
           toy_lstm_forward toy_lstm_backward toy_dnn_initialize
           toy_dnn_forward toy_dnn_backward unit toy_shuffle toy_shuffle_perm
           [toy_zero; toy_zero] (Some 1%Z) 2 true None false toy_world).
  - repeat constructor.
  - lia.
Defined.

Lemma one_class_dict_trains_nothing_witness :
  ∃ w',
    train_nn_using_k_lstm_bit nat nat toy_lstm_initialize toy_lstm_forward
      toy_lstm_backward toy_dnn_initialize toy_dnn_forward toy_dnn_backward
      unit toy_shuffle toy_sample toy_shuffle
      {[ "b"%string := toy_pos.2 ]} (Some 1%Z) 1 true None false true
      toy_world
    = (w', Ok (toy_lstm_initialize Nf_quality M,
               toy_dnn_initialize [1 + 12; 1 + 12 + M `div` 2; 1]%Z))
    ∧ w_log nat nat unit w' = [].
Proof.
  apply (one_class_dict_trains_nothing nat nat toy_lstm_initialize
           toy_lstm_forward toy_lstm_backward toy_dnn_initialize
           toy_dnn_forward toy_dnn_backward unit toy_shuffle toy_sample
           toy_shuffle toy_shuffle_perm toy_shuffle_perm toy_sample_sub
           toy_sample_length {[ "b"%string := toy_pos.2 ]} (Some 1%Z) 1 true
           None false toy_world).
  - left. vm_compute. reflexivity.
  - lia.
Defined.

Lemma encoder_gradient_shape_witness :
  ∃ g lf',
    LstmBackward g lf'
    ∈ new_calls nat nat unit toy_world
        (train_item nat nat toy_lstm_forward toy_lstm_backward
           toy_dnn_forward toy_dnn_backward unit (Some 1%Z) true None false
           toy_pos ([], 1) toy_world).1
    ∧ (∃ x, g !! 0%nat = Some x ∧ x == -2)
    ∧ ∃ ytv n1 y n2 bp_res,
        Some 1 = Some ytv
        ∧ toy_dnn_forward 0%nat (slice_to (Some 1%Z) [1; 1] ++ [5; 4; 3; 2; 1])
          = Ok (n1, y)
        ∧ toy_dnn_backward n1 (2 * (y - normalize ytv)) = Ok (n2, bp_res)
        ∧ length g = 2%nat
        ∧ (∀ z i, Some 1%Z = Some z → (Z.to_nat z ≤ i < 2)%nat →
                  g !! i = Some 0)
        ∧ (∀ z i, Some 1%Z = Some z → (i < Z.to_nat z)%nat → (i < 2)%nat →
                  g !! i = np_resize bp_res 2 !! i)
        ∧ (Some 1%Z = None → g = np_resize bp_res 2).
Proof.
  eexists _, _. split; [|split].
  - vm_compute. repeat constructor.
  - eexists. split; reflexivity.
  - eapply (encoder_gradient_shape nat nat toy_lstm_forward toy_lstm_backward
             toy_dnn_forward toy_dnn_backward unit (Some 1%Z) true false
             "b"%string [] [5; 4; 3; 2; 1] (Some 1) [] 1
             toy_world 0%nat [1; 1]).
    + reflexivity.
    + vm_compute. repeat constructor.
Defined.

Lemma test_scores_on_parallel_buckets_witness :
  ∃ w' errors y_pred y_true label_weights scores,
    test_nn_using_k_lstm_bit nat nat toy_lstm_forward toy_dnn_forward unit
      toy_metrics toy_dict (Some 1%Z) true toy_world
    = (w', Ok (errors, y_pred, y_true, label_weights, scores))
    ∧ let n := length (filter usable (map_to_list toy_dict)) in
      ∃ Y_true Y_pred support,
        toy_metrics Y_true Y_pred = (scores, support)
        ∧ length Y_true = n ∧ length Y_pred = n
        ∧ (∀ i, Y_true !! i
                = (λ q, if Qltb q (1 # 2) then 1%Z else 0%Z) <$> y_true !! i)
        ∧ (∀ i, Y_pred !! i
                = (λ q, if Qltb q (1 # 2) then 1%Z else 0%Z) <$> y_pred !! i).
Proof.
  eexists _, _, _, _, _, _. split; [vm_compute; reflexivity|].
  eapply (test_scores_on_parallel_buckets nat nat toy_lstm_forward
           toy_dnn_forward unit toy_metrics toy_dict (Some 1%Z) true
           toy_world).
  vm_compute; reflexivity.
Defined.
